(** * Model registry, serving client and cloud-sync client

    A shallow embedding of the three JavaScript modules of the repository
    ([lib/ollama-client.js], [lib/google-drive-manager.js] and
    [lib/model-manager.js]) and the properties of the model-registry
    lifecycle that the specification states about them.

    Conventions of the embedding:
    - an [async] method is a computation in the monad [M]: it threads the
      state of the process and of the local file system, and it either
      resolves with a value or rejects with the message of the [Error];
    - everything the outside world decides (HTTP exchanges with the serving
      endpoint, the outcome of every python subprocess, the readings of the
      clock) is an argument [Env] of the operation;
    - JavaScript objects are association lists in insertion order, looked up
      by own property; strings are sequences of code units below 256, and a
      chunk of a response is the text that [buffer += chunk] appends;
    - [EventEmitter.emit] appends to a log, listeners are assumed attached
      and not to throw;
    - [path.join] is concatenation with a separator, and file system calls
      succeed unless the source checks for the failure itself. *)

From Stdlib Require Import Ascii.
From stdpp Require Import base numbers list strings pretty gmap sorting.

Open Scope Z_scope.

(** ** JavaScript values *)

(** The values [JSON.parse] produces.  [undefined] is [None] in an
    [option Json]. *)
#[warnings="-register-all"]
Inductive Json : Type :=
  | JNull
  | JBool (b : bool)
  | JNum (n : Z)
  | JStr (s : string)
  | JArr (items : list Json)
  | JObj (fields : list (string * Json)).

(** [JSON.parse] is the runtime's: it returns the value, or the message of
    the [SyntaxError] it throws. *)
Class Runtime := JSON_parse : string -> Json + string.

(** ToBoolean. *)
Definition truthy (v : option Json) : bool :=
  match v with
  | None | Some JNull => false
  | Some (JBool b) => b
  | Some (JNum n) => negb (n =? 0)
  | Some (JStr s) => negb (String.eqb s "")
  | Some (JArr _) | Some (JObj _) => true
  end.

(** ** Objects used as maps *)

Module Obj.
Section Obj.
Context {V : Type}.

(** [o[k]] *)
Fixpoint get (o : list (string * V)) (k : string) : option V :=
  match o with
  | [] => None
  | (k', v) :: o' => if String.eqb k' k then Some v else get o' k
  end.

(** [o[k] = v]: an existing key keeps its place, a new one goes last. *)
Fixpoint set (o : list (string * V)) (k : string) (v : V) : list (string * V) :=
  match o with
  | [] => [(k, v)]
  | (k', v') :: o' =>
      if String.eqb k' k then (k', v) :: o' else (k', v') :: set o' k v
  end.

(** [delete o[k]] *)
Fixpoint remove (o : list (string * V)) (k : string) : list (string * V) :=
  match o with
  | [] => []
  | (k', v') :: o' =>
      if String.eqb k' k then remove o' k else (k', v') :: remove o' k
  end.

(** A key is an array index when it is the canonical decimal form of an
    integer below 2^32 - 1. *)
Fixpoint digits_value (acc : N) (k : string) : N :=
  match k with
  | EmptyString => acc
  | String c k' => digits_value (10 * acc + (Ascii.N_of_ascii c - 48))%N k'
  end.

Definition array_index (k : string) : option N :=
  let n := digits_value 0 k in
  if String.eqb (pretty n) k && (n <? 4294967295)%N then Some n else None.

Definition index_keys (o : list (string * V)) : list N :=
  omap (fun kv => array_index kv.1) o.

Definition named_keys (o : list (string * V)) : list string :=
  filter (fun k => array_index k = None) (o.*1).

(** [Object.keys(o)]: array indices in ascending order, then the other
    keys in insertion order. *)
Definition keys (o : list (string * V)) : list string :=
  (pretty <$> merge_sort N.le (index_keys o)) ++ named_keys o.

(** [Object.entries(o)] *)
Definition entries (o : list (string * V)) : list (string * V) :=
  omap (fun k => pair k <$> get o k) (keys o).
End Obj.
End Obj.

(** ** The manifest *)

(** A date as [toISOString] prints it; the text is determined by the
    millisecond reading of the clock it was made from. *)
Inductive Timestamp : Type := ISO (ms : Z).

(** One row of [config.models]. *)
Record ModelEntry : Type := mkEntry {
  source : string;
  pulledAt : option Timestamp;
  info : option Json;
  baseModel : option string;
  trainingDataPath : option string;
  trainingId : option string;
  trainedAt : option Timestamp;
  restoredAt : option Timestamp;
  synced : bool;
  syncedAt : option Timestamp
}.

Record Settings : Type := mkSettings {
  overwriteModels : option Json
}.

Record GDriveConfig : Type := mkGDrive {
  authenticated : option bool;
  backupFolderId : option Json;
  setupAt : option Timestamp
}.

Record Config : Type := mkConfig {
  models : list (string * ModelEntry);
  settings : Settings;
  gdrive : GDriveConfig
}.

(** [{ models: {}, settings: {}, gdrive: {} }] *)
Definition empty_config : Config :=
  mkConfig [] (mkSettings None) (mkGDrive None None None).

(** The file at [configPath]: the text [JSON.stringify] wrote for a
    manifest, or a text that [JSON.parse] rejects. *)
Inductive Stored : Type :=
  | Manifest (c : Config)
  | Unparseable (text : string).

(** ** The process and its surroundings *)

(** The three [EventEmitter]s: [this.ollama], [this.gdrive] and the manager. *)
Inductive Emitter : Type := by_ollama | by_gdrive | by_manager.

Record Event : Type := mkEvent {
  emitter : Emitter;
  name : string;
  payload : option Json
}.

(** The paths fixed by the constructors' options. *)
Record Options : Type := mkOptions {
  modelPath : string;
  configPath : string;
  trainingPath : string;
  ollama_modelPath : string;
  gdrive_modelPath : string;
  tokenPath : string;
  usePythonSDK : bool
}.

Record World : Type := mkWorld {
  options : Options;
  config : Config;                 (* this.config *)
  config_file : option Stored;     (* the file at configPath *)
  directories : gset string;       (* directories of the file system *)
  regular_files : gset string;     (* its other files *)
  events : list Event;             (* every emit, oldest first *)
  timers : list Z;                 (* every awaited setTimeout, in ms *)
  spawned : nat                    (* python subprocesses started *)
}.

Definition set_config (c : Config) (w : World) : World :=
  mkWorld (options w) c (config_file w) (directories w) (regular_files w)
          (events w) (timers w) (spawned w).
Definition set_config_file (f : option Stored) (w : World) : World :=
  mkWorld (options w) (config w) f (directories w) (regular_files w)
          (events w) (timers w) (spawned w).
Definition set_directories (d : gset string) (w : World) : World :=
  mkWorld (options w) (config w) (config_file w) d (regular_files w)
          (events w) (timers w) (spawned w).
Definition set_regular_files (f : gset string) (w : World) : World :=
  mkWorld (options w) (config w) (config_file w) (directories w) f
          (events w) (timers w) (spawned w).
Definition set_events (e : list Event) (w : World) : World :=
  mkWorld (options w) (config w) (config_file w) (directories w)
          (regular_files w) e (timers w) (spawned w).
Definition set_timers (t : list Z) (w : World) : World :=
  mkWorld (options w) (config w) (config_file w) (directories w)
          (regular_files w) (events w) t (spawned w).
Definition set_spawned (n : nat) (w : World) : World :=
  mkWorld (options w) (config w) (config_file w) (directories w)
          (regular_files w) (events w) (timers w) n.

(** ** Promises *)

Inductive Outcome (A : Type) : Type :=
  | Resolved (a : A)
  | Rejected (message : string).
Arguments Resolved {A} a.
Arguments Rejected {A} message.

Definition M (A : Type) : Type := World -> Outcome A * World.

Definition ret {A} (a : A) : M A := fun w => (Resolved a, w).

Definition bind {A B} (m : M A) (k : A -> M B) : M B :=
  fun w => match m w with
           | (Resolved a, w') => k a w'
           | (Rejected e, w') => (Rejected e, w')
           end.

Definition throw {A} (message : string) : M A := fun w => (Rejected message, w).

(** [try { m } catch (e) { h e }] *)
Definition try_catch {A} (m : M A) (h : string -> M A) : M A :=
  fun w => match m w with
           | (Resolved a, w') => (Resolved a, w')
           | (Rejected e, w') => h e w'
           end.

Notation "'let!' x ':=' m 'in' k" := (bind m (fun x => k))
  (at level 10, x name, m at level 100, k at level 200).
Notation "m '>>>' k" := (bind m (fun _ => k))
  (at level 100, k at level 200, right associativity).

Definition get_world : M World := fun w => (Resolved w, w).
Definition modify (f : World -> World) : M unit := fun w => (Resolved tt, f w).

Definition when (b : bool) (m : M unit) : M unit := if b then m else ret tt.

(** [for (const x of l) body(x)] *)
Fixpoint forEach {A} (body : A -> M unit) (l : list A) : M unit :=
  match l with
  | [] => ret tt
  | x :: l' => body x >>> forEach body l'
  end.

(** A loop that carries a local variable. *)
Fixpoint foldM {A S} (body : S -> A -> M S) (s : S) (l : list A) : M S :=
  match l with
  | [] => ret s
  | x :: l' => let! s' := body s x in foldM body s' l'
  end.

(** [l.map(f)] for an [f] that may throw. *)
Fixpoint mapM {A B} (f : A -> M B) (l : list A) : M (list B) :=
  match l with
  | [] => ret []
  | x :: l' => let! y := f x in let! ys := mapM f l' in ret (y :: ys)
  end.

Definition emit (em : Emitter) (nm : string) (p : option Json) : M unit :=
  modify (fun w => set_events (events w ++ [mkEvent em nm p]) w).

(** [await new Promise(r => setTimeout(r, ms))] *)
Definition sleep (ms : Z) : M unit :=
  modify (fun w => set_timers (timers w ++ [ms]) w).

(** ** File system *)

Definition path_join (dir file : string) : string := dir +:+ "/" +:+ file.

Definition existsSync (p : string) : M bool :=
  fun w => (Resolved (bool_decide (p ∈ directories w) || bool_decide (p ∈ regular_files w)), w).

Definition isDirectory (p : string) : M bool :=
  fun w => (Resolved (bool_decide (p ∈ directories w)), w).

Definition mkdirSync (p : string) : M unit :=
  modify (fun w => set_directories ({[p]} ∪ directories w) w).

(** [fs.rmSync(p, { recursive: true })]: the directory and what is below it. *)
Definition below (p q : string) : bool :=
  String.eqb q p || String.prefix (p +:+ "/") q.

Definition rmSync (p : string) : M unit :=
  modify (fun w =>
    set_regular_files (filter (fun q => below p q = false) (regular_files w))
      (set_directories (filter (fun q => below p q = false) (directories w)) w)).

(** [fs.unlinkSync(p)] throws when [p] is not a regular file. *)
Definition unlinkSync (p : string) : M unit :=
  fun w =>
    if bool_decide (p ∈ regular_files w)
    then (Resolved tt, set_regular_files (regular_files w ∖ {[p]}) w)
    else (Rejected ("EPERM: operation not permitted, unlink '" +:+ p +:+ "'"), w).

(** [fs.copyFileSync(src, dst)] throws when [src] is not a regular file. *)
Definition copyFileSync (src dst : string) : M unit :=
  fun w =>
    if bool_decide (src ∈ regular_files w)
    then (Resolved tt, set_regular_files ({[dst]} ∪ regular_files w) w)
    else (Rejected ("EISDIR: illegal operation on a directory, copyfile '" +:+ src +:+ "'"), w).

(** ** lib/ollama-client.js *)

(** What the endpoint does with one request: the response ends after some
    ['data'] events, or the request emits ['error']. *)
Inductive Exchange : Type :=
  | Response (statusCode : Z) (chunks : list string)
  | RequestError (message : string).

(** The request of [checkHealth]. *)
Inductive Probe : Type :=
  | ProbeStatus (statusCode : Z)
  | ProbeError
  | ProbeTimeout.

(** What [getServerInfo] returns: [{ available, host, models, modelList }],
    or [{ available: false, host, error }]. *)
Inductive ServerInfo : Type :=
  | ServerStatus (available : bool) (host : string) (models : nat)
                 (modelList : list (option Json))
  | ServerError (host : string) (error : string).

Definition newline : ascii := Ascii.ascii_of_nat 10.

(** [s.split('\n')] *)
Fixpoint split_nl (s : string) : list string :=
  match s with
  | EmptyString => [EmptyString]
  | String c s' =>
      if Ascii.eqb c newline then EmptyString :: split_nl s'
      else match split_nl s' with
           | l :: ls => String c l :: ls
           | [] => [String c EmptyString]
           end
  end.

(** White space of [String.prototype.trim] among the code units below 256. *)
Definition is_space (c : ascii) : bool :=
  let n := Ascii.nat_of_ascii c in
  ((9 <=? n) && (n <=? 13) || (n =? 32) || (n =? 160))%nat.

(** [!line.trim()] *)
Fixpoint blank (line : string) : bool :=
  match line with
  | EmptyString => true
  | String c l => is_space c && blank l
  end.

(** [s.replace(a, b)] for one-character strings: the first occurrence only. *)
Fixpoint replace_first (a b : ascii) (s : string) : string :=
  match s with
  | EmptyString => EmptyString
  | String c s' => if Ascii.eqb c a then String b s' else String c (replace_first a b s')
  end.

(** [s.replace(/a/g, b)] *)
Fixpoint replace_all (a b : ascii) (s : string) : string :=
  match s with
  | EmptyString => EmptyString
  | String c s' => String (if Ascii.eqb c a then b else c) (replace_all a b s')
  end.

(** [v.k] for a parsed value: reading a property of [null] throws. *)
Definition prop (v : Json) (k : string) : M (option Json) :=
  match v with
  | JNull => throw ("Cannot read properties of null (reading '" +:+ k +:+ "')")
  | JObj fields => ret (Obj.get fields k)
  | _ => ret None
  end.

Module OllamaClient.
Section OllamaClient.
Context `{Runtime}.

(** The body of [lines.slice(0, -1).forEach] in [pullModel]. *)
Definition pull_line (modelName : string) (onProgress : option (Json -> M unit))
    (line : string) : M unit :=
  when (negb (blank line))
    (try_catch
       (match JSON_parse line with
        | inl status =>
            match onProgress with Some f => f status | None => ret tt end >>>
            emit by_ollama "progress"
              (Some (JObj [("model", JStr modelName); ("status", status)]))
        | inr e => throw e
        end)
       (fun _ => ret tt)).

(** [res.on('data', ...)] of [pullModel]; the result is the new [buffer]. *)
Definition pull_data (modelName : string) (onProgress : option (Json -> M unit))
    (buffer chunk : string) : M string :=
  let buffer := buffer +:+ chunk in
  let lines := split_nl buffer in
  forEach (pull_line modelName onProgress) (removelast lines) >>>
  ret (List.last lines EmptyString).

Definition pullModel (modelName : string) (onProgress : option (Json -> M unit))
    (x : Exchange) : M Json :=
  match x with
  | Response statusCode chunks =>
      foldM (pull_data modelName onProgress) EmptyString chunks >>>
      if statusCode =? 200
      then ret (JObj [("success", JBool true); ("model", JStr modelName)])
      else throw ("Failed to pull model: HTTP " +:+ pretty statusCode)
  | RequestError message => throw message
  end.

Definition modelExists (modelName : string) : M bool :=
  let! w := get_world in
  existsSync (path_join (ollama_modelPath (options w))
                        (replace_first ":"%char "_"%char modelName)).

Definition showModel (modelName : string) (x : Exchange) : M Json :=
  match x with
  | Response _ chunks =>
      match JSON_parse (foldl String.app EmptyString chunks) with
      | inl v => ret v
      | inr e => throw ("Failed to parse model info: " +:+ e)
      end
  | RequestError message => throw message
  end.




Definition deleteModel (modelName : string) (x : Exchange) : M Json :=
  match x with
  | Response statusCode _ =>
      if statusCode =? 200
      then ret (JObj [("success", JBool true); ("model", JStr modelName)])
      else throw ("Failed to delete model: HTTP " +:+ pretty statusCode)
  | RequestError message => throw message
  end.

Definition checkHealth (p : Probe) : M bool :=
  ret (match p with
       | ProbeStatus statusCode => statusCode =? 200
       | ProbeError | ProbeTimeout => false
       end).

(** [parsed.models || []]; the [try] covers the property access too. *)
Definition listModels (x : Exchange) : M Json :=
  match x with
  | Response _ chunks =>
      try_catch
        (match JSON_parse (foldl String.app EmptyString chunks) with
         | inl parsed =>
             let! models := prop parsed "models" in
             ret (if truthy models then default (JArr []) models else JArr [])
         | inr e => throw e
         end)
        (fun e => throw ("Failed to parse Ollama response: " +:+ e))
  | RequestError message => throw message
  end.

Definition generate (x : Exchange) : M Json :=
  match x with
  | Response _ chunks =>
      match JSON_parse (foldl String.app EmptyString chunks) with
      | inl v => ret v
      | inr e => throw ("Failed to parse generation response: " +:+ e)
      end
  | RequestError message => throw message
  end.

(** [models.length] and [models.map(m => m.name)] of [getServerInfo]: only
    an array has a [map]. *)
Definition names_of (models : Json) : M (nat * list (option Json)) :=
  match models with
  | JArr items =>
      let! modelList := mapM (fun m => prop m "name") items in
      ret (length items, modelList)
  | _ => throw "models.map is not a function"
  end.

(** [host] is [this.host]; [p] answers the request of [checkHealth] and [x]
    the request of [listModels], which is only made when the server is
    healthy. *)
Definition getServerInfo (host : string) (p : Probe) (x : Exchange) : M ServerInfo :=
  try_catch
    (let! isHealthy := checkHealth p in
     let! models := if isHealthy then listModels x else ret (JArr []) in
     let! counted := names_of models in
     ret (ServerStatus isHealthy host counted.1 counted.2))
    (fun e => ret (ServerError host e)).
End OllamaClient.
End OllamaClient.

(** ** lib/google-drive-manager.js *)

(** What [exec] reports for one python subprocess. *)
Inductive Exec : Type :=
  | ExecError (message : string)     (* [stderr || error.message] *)
  | ExecOutput (stdout : string).

(** One run of a generated script: the directories it made on the local
    file system, and what [exec] reports. *)
Record Script_run : Type := mkRun {
  made : list string;
  exit : Exec
}.

Record ExecOptions : Type := mkExecOptions {
  maxRetries : option nat;
  onProgress : option (Json -> M unit)
}.

Definition retry_payload (attempt : nat) (error : string) : option Json :=
  Some (JObj [("attempt", JNum (Z.of_nat attempt)); ("error", JStr error)]).

Definition error_payload (type error : string) : option Json :=
  Some (JObj [("type", JStr type); ("error", JStr error)]).

Module GoogleDriveManager.
Section GoogleDriveManager.
Context `{Runtime}.

Definition _executeScriptAttempt (options : ExecOptions) (r : Script_run) : M Json :=
  modify (fun w => set_spawned (S (spawned w)) w) >>>
  forEach mkdirSync (made r) >>>
  match exit r with
  | ExecError message => throw ("Script execution failed: " +:+ message)
  | ExecOutput stdout =>
      try_catch
        (match JSON_parse stdout with
         | inl result =>
             match onProgress options with Some f => f result | None => ret tt end >>>
             ret result
         | inr e => throw e
         end)
        (fun parseError => throw ("Failed to parse script output: " +:+ parseError))
  end.

(** The [for] loop of [_executePythonScript], entered at [attempt] with
    [remaining] iterations to go. *)
Fixpoint attempts (maxRetries : nat) (options : ExecOptions) (runs : nat -> Script_run)
    (remaining attempt : nat) (lastError : option string) : M Json :=
  match remaining with
  | O => throw (default "undefined" lastError)
  | S remaining' =>
      try_catch (_executeScriptAttempt options (runs attempt))
        (fun error =>
           when (attempt <? maxRetries - 1)%nat
             (sleep (2 ^ Z.of_nat attempt * 1000) >>>
              emit by_gdrive "retry" (retry_payload (attempt + 1) error)) >>>
           attempts maxRetries options runs remaining' (S attempt) (Some error))
  end.

(** [options.maxRetries || 2] *)
Definition retries_of (options : ExecOptions) : nat :=
  match maxRetries options with
  | Some (S n) => S n
  | Some O | None => 2%nat
  end.

Definition _executePythonScript (options : ExecOptions) (runs : nat -> Script_run) : M Json :=
  let maxRetries := retries_of options in
  attempts maxRetries options runs maxRetries 0 None.

Definition uploadDirectory (localPath : string) (runs : nat -> Script_run) : M Json :=
  let! found := existsSync localPath in
  if negb found then throw ("Directory not found: " +:+ localPath) else
  let! dir := isDirectory localPath in
  if negb dir then throw ("Not a directory: " +:+ localPath) else
  _executePythonScript
    (mkExecOptions None (Some (fun progress => emit by_gdrive "upload-progress" (Some progress))))
    runs.

Definition downloadModels (runs : nat -> Script_run) : M Json :=
  _executePythonScript
    (mkExecOptions None (Some (fun progress => emit by_gdrive "download-progress" (Some progress))))
    runs.

(** [runs 0] are the runs of the upload script, [runs 1] those of the
    download script. *)
Definition syncModels (direction : option string) (runs : nat -> nat -> Script_run) : M Json :=
  let direction := default "both" (if direction is Some EmptyString then None else direction) in
  try_catch
    (let! uploaded :=
       if String.eqb direction "upload" || String.eqb direction "both"
       then emit by_gdrive "sync-status" (Some (JObj [("stage", JStr "uploading")])) >>>
            let! w := get_world in
            uploadDirectory (gdrive_modelPath (options w)) (runs 0%nat)
       else ret (JArr []) in
     let! downloaded :=
       if String.eqb direction "download" || String.eqb direction "both"
       then emit by_gdrive "sync-status" (Some (JObj [("stage", JStr "downloading")])) >>>
            downloadModels (runs 1%nat)
       else ret (JArr []) in
     let results := JObj [("uploaded", uploaded); ("downloaded", downloaded)] in
     emit by_gdrive "sync-complete" (Some results) >>>
     ret results)
    (fun error =>
       emit by_gdrive "error" (error_payload "sync_failed" error) >>>
       throw error).

Definition listFolderContents (runs : nat -> Script_run) : M Json :=
  _executePythonScript (mkExecOptions None None) runs.

Definition createFolder (runs : nat -> Script_run) : M Json :=
  _executePythonScript (mkExecOptions None None) runs.

Definition getStorageInfo (runs : nat -> Script_run) : M Json :=
  _executePythonScript (mkExecOptions None None) runs.

Definition _authenticatePython (r : Script_run) : M Json :=
  try_catch
    (modify (fun w => set_spawned (S (spawned w)) w) >>>
     forEach mkdirSync (made r) >>>
     match exit r with
     | ExecError message => throw message
     | ExecOutput stdout =>
         match JSON_parse stdout with
         | inl token =>
             modify (fun w =>
               set_regular_files ({[tokenPath (options w)]} ∪ regular_files w) w) >>>
             emit by_gdrive "authenticated" (Some (JObj [("method", JStr "python")])) >>>
             ret token
         | inr e => throw e
         end
     end)
    (fun error => throw ("Python authentication failed: " +:+ error)).

Definition _authenticateNode : M Json :=
  throw "Node.js Google Drive authentication requires additional setup. Use Python SDK instead.".

Definition authenticate (r : Script_run) : M Json :=
  try_catch
    (let! w := get_world in
     if usePythonSDK (options w) then _authenticatePython r else _authenticateNode)
    (fun error =>
       emit by_gdrive "error" (error_payload "auth_failed" error) >>>
       throw error).

Definition isAuthenticated : M bool :=
  let! w := get_world in existsSync (tokenPath (options w)).

Definition revokeAuth : M unit :=
  let! w := get_world in
  let! found := existsSync (tokenPath (options w)) in
  when found
    (unlinkSync (tokenPath (options w)) >>>
     emit by_gdrive "auth-revoked" None).
End GoogleDriveManager.
End GoogleDriveManager.

(** ** lib/model-manager.js *)

(** What the outside world does during one operation of the manager. *)
Record Env : Type := mkEnv {
  health : Probe;                       (* GET /api/tags of checkHealth *)
  pulled : Exchange;                    (* POST /api/pull *)
  shown : Exchange;                     (* POST /api/show *)
  deleted : Exchange;                   (* DELETE /api/delete *)
  auth_run : Script_run;                (* python gdrive_auth.py *)
  python : nat -> nat -> Script_run;    (* attempt [a] of the [c]-th generated script *)
  clock : nat -> Z                      (* the readings of the clock, in order *)
}.

Definition set_models (m : list (string * ModelEntry)) (c : Config) : Config :=
  mkConfig m (settings c) (gdrive c).
Definition set_gdrive (g : GDriveConfig) (c : Config) : Config :=
  mkConfig (models c) (settings c) g.

Definition set_synced (b : bool) (e : ModelEntry) : ModelEntry :=
  mkEntry (source e) (pulledAt e) (info e) (baseModel e) (trainingDataPath e)
          (trainingId e) (trainedAt e) (restoredAt e) b (syncedAt e).
Definition set_syncedAt (t : Timestamp) (e : ModelEntry) : ModelEntry :=
  mkEntry (source e) (pulledAt e) (info e) (baseModel e) (trainingDataPath e)
          (trainingId e) (trainedAt e) (restoredAt e) (synced e) (Some t).

(** The directory names below [base] among [paths], as [readdirSync] lists
    them (in the order of the set's enumeration). *)
Definition child_of (base p : string) : option string :=
  let prefix := base +:+ "/" in
  if String.prefix prefix p
  then let rest := String.substring (String.length prefix)
                     (String.length p - String.length prefix) p in
       if negb (String.eqb rest EmptyString) && forallb (fun c => negb (Ascii.eqb c "/"%char))
                                    (String.list_ascii_of_string rest)
       then Some rest else None
  else None.

(** [fs.readdirSync(p)]: the names directly below [p], in the order of the
    set's enumeration; it throws when [p] is not a directory. *)
Definition readdirSync (p : string) : M (list string) :=
  fun w =>
    if bool_decide (p ∈ directories w)
    then (Resolved (omap (child_of p) (elements (directories w ∪ regular_files w))), w)
    else (Rejected ("ENOTDIR: not a directory, scandir '" +:+ p +:+ "'"), w).

(** One row of [listModels().remote]; [source] is always ['ollama']. *)
Record RemoteModel : Type := mkRemote {
  remote_name : option Json;
  remote_size : option Json;
  remote_modified : option Json
}.

(** One row of [listModels().local]: [{ name, ...entry, path }]. *)
Record LocalModel : Type := mkLocal {
  local_name : string;
  local_entry : option ModelEntry;
  local_path : string
}.

(** [{ total, synced, local, remote }] *)
Record Stats : Type := mkStats {
  total : nat;
  stats_synced : nat;
  stats_local : nat;
  stats_remote : nat
}.

Module ModelManager.
Section ModelManager.
Context `{Runtime}.

(** [this.config.models[k] = e] *)
Definition store_entry (k : string) (e : ModelEntry) : M unit :=
  modify (fun w => set_config (set_models (Obj.set (models (config w)) k e) (config w)) w).

(** [this.config.models[k].field = ...], a [TypeError] when there is no
    such entry. *)
Definition update_entry (k : string) (f : ModelEntry -> ModelEntry) : M unit :=
  let! w := get_world in
  match Obj.get (models (config w)) k with
  | Some e => store_entry k (f e)
  | None => throw "Cannot set properties of undefined"
  end.

Definition _loadConfig : M Config :=
  let! w := get_world in
  match config_file w with
  | Some (Manifest c) => ret c
  | Some (Unparseable text) =>
      emit by_manager "warning"
        (Some (JStr ("Failed to load config: " +:+
                     match JSON_parse text with inr e => e | inl _ => EmptyString end))) >>>
      ret empty_config
  | None => ret empty_config
  end.

Definition ensure_directory (dir : string) : M unit :=
  let! found := existsSync dir in when (negb found) (mkdirSync dir).

Definition _ensureDirectories : M unit :=
  let! w := get_world in
  forEach ensure_directory [modelPath (options w); trainingPath (options w)].

(** [new ModelManager(options)], run in the world the process starts in. *)
Definition constructor : M unit :=
  let! w := get_world in
  ensure_directory (ollama_modelPath (options w)) >>>
  let! c := _loadConfig in
  modify (set_config c) >>>
  _ensureDirectories.

Definition _saveConfig : M unit :=
  modify (fun w => set_config_file (Some (Manifest (config w))) w).

Definition model_payload (modelName : string) : option Json :=
  Some (JObj [("model", JStr modelName)]).

Definition pullModel (modelName : string) (env : Env) : M Json :=
  try_catch
    (emit by_manager "pull-start" (model_payload modelName) >>>
     let! isHealthy := OllamaClient.checkHealth (health env) in
     if negb isHealthy then throw "Ollama server is not accessible" else
     let! found := OllamaClient.modelExists modelName in
     let! w := get_world in
     if found && negb (truthy (overwriteModels (settings (config w)))) then
       emit by_manager "pull-skipped"
         (Some (JObj [("model", JStr modelName); ("reason", JStr "already_exists")])) >>>
       ret (JObj [("status", JStr "skipped"); ("model", JStr modelName)])
     else
     let! result :=
       OllamaClient.pullModel modelName
         (Some (fun progress =>
                  emit by_manager "pull-progress"
                    (Some (JObj [("model", JStr modelName); ("progress", progress)]))))
         (pulled env) in
     let! modelInfo := OllamaClient.showModel modelName (shown env) in
     store_entry modelName
       (mkEntry "ollama" (Some (ISO (clock env 0%nat))) (Some modelInfo)
                None None None None None false None) >>>
     _saveConfig >>>
     emit by_manager "pull-complete" (model_payload modelName) >>>
     ret result)
    (fun error =>
       emit by_manager "pull-error"
         (Some (JObj [("model", JStr modelName); ("error", JStr error)])) >>>
       throw error).

(** The body of the loop of [syncToGoogleDrive]; [i] counts the dates made. *)
Definition mark_synced (env : Env) (i : nat) (modelName : string) : M nat :=
  update_entry modelName (set_synced true) >>>
  update_entry modelName (set_syncedAt (ISO (clock env i))) >>>
  ret (S i).

Definition syncToGoogleDrive (folderIdOrConfig : option Json) (env : Env) : M Json :=
  try_catch
    (emit by_manager "sync-start" (Some (JObj [("direction", JStr "upload")])) >>>
     let! authenticated := GoogleDriveManager.isAuthenticated in
     if negb authenticated
     then throw "Not authenticated with Google Drive. Run setup first." else
     let! w := get_world in
     let folderId :=
       match folderIdOrConfig with
       | Some (JStr s) => Some (JStr s)
       | _ => backupFolderId (gdrive (config w))
       end in
     if negb (truthy folderId) then throw "No Google Drive folder configured" else
     let! result := GoogleDriveManager.syncModels (Some "upload") (python env) in
     let! w := get_world in
     foldM (mark_synced env) 0%nat (Obj.keys (models (config w))) >>>
     _saveConfig >>>
     emit by_manager "sync-complete"
       (Some (JObj [("direction", JStr "upload"); ("result", result)])) >>>
     ret result)
    (fun error =>
       emit by_manager "error" (error_payload "sync_to_gdrive" error) >>>
       throw error).

Definition _scanLocalModels : M (list string) :=
  let! w := get_world in
  let! found := existsSync (modelPath (options w)) in
  if negb found then ret [] else
  ret (replace_all "_"%char ":"%char <$>
         omap (child_of (modelPath (options w))) (elements (directories w))).

(** The body of the loop of [restoreFromGoogleDrive]. *)
Definition track_restored (env : Env) (i : nat) (model : string) : M nat :=
  let! w := get_world in
  match Obj.get (models (config w)) model with
  | Some _ => ret i
  | None =>
      store_entry model
        (mkEntry "restored" None None None None None None
                 (Some (ISO (clock env i))) true None) >>>
      ret (S i)
  end.

Definition restoreFromGoogleDrive (env : Env) : M Json :=
  try_catch
    (emit by_manager "sync-start" (Some (JObj [("direction", JStr "download")])) >>>
     let! authenticated := GoogleDriveManager.isAuthenticated in
     if negb authenticated then throw "Not authenticated with Google Drive" else
     let! result := GoogleDriveManager.downloadModels (python env 0%nat) in
     let! restoredModels := _scanLocalModels in
     foldM (track_restored env) 0%nat restoredModels >>>
     _saveConfig >>>
     emit by_manager "sync-complete"
       (Some (JObj [("direction", JStr "download"); ("result", result)])) >>>
     ret result)
    (fun error =>
       emit by_manager "error" (error_payload "restore_from_gdrive" error) >>>
       throw error).

Definition trainModel (modelName trainingData outputName : string) (env : Env) : M Json :=
  try_catch
    (emit by_manager "training-start"
       (Some (JObj [("model", JStr modelName); ("output", JStr outputName)])) >>>
     let! found := existsSync trainingData in
     if negb found then throw ("Training data not found: " +:+ trainingData) else
     let! isHealthy := OllamaClient.checkHealth (health env) in
     if negb isHealthy then throw "Ollama server required for training" else
     let trainingId := outputName +:+ "_" +:+ pretty (clock env 0%nat) in
     let! w := get_world in
     let trainingDir := path_join (trainingPath (options w)) trainingId in
     mkdirSync trainingDir >>>
     copyFileSync trainingData (path_join trainingDir "training-data.txt") >>>
     store_entry outputName
       (mkEntry "trained" None None (Some modelName) (Some trainingData)
                (Some trainingId) (Some (ISO (clock env 1%nat))) None false None) >>>
     _saveConfig >>>
     emit by_manager "training-complete"
       (Some (JObj [("model", JStr modelName); ("output", JStr outputName);
                    ("trainingId", JStr trainingId)])) >>>
     ret (JObj [("success", JBool true); ("trainingId", JStr trainingId);
                ("outputName", JStr outputName)]))
    (fun error =>
       emit by_manager "error" (error_payload "training_failed" error) >>>
       throw error).

Definition deleteModel (modelName : string) (deleteLocal deleteRemote : bool)
    (env : Env) : M Json :=
  try_catch
    (let! w := get_world in
     when (deleteLocal && bool_decide (is_Some (Obj.get (models (config w)) modelName)))
       (let modelDir := path_join (modelPath (options w))
                                  (replace_first ":"%char "_"%char modelName) in
        let! found := existsSync modelDir in
        when found (rmSync modelDir) >>>
        modify (fun w =>
          set_config (set_models (Obj.remove (models (config w)) modelName) (config w)) w)) >>>
     when deleteRemote
       (OllamaClient.deleteModel modelName (deleted env) >>> ret tt) >>>
     _saveConfig >>>
     emit by_manager "model-deleted" (model_payload modelName) >>>
     ret (JObj [("success", JBool true); ("model", JStr modelName)]))
    (fun error =>
       emit by_manager "error" (error_payload "delete_failed" error) >>>
       throw error).

Definition json_or_null (v : option Json) : Json := default JNull v.

Definition setupGoogleDrive (backupFolderId : option Json) (env : Env) : M Json :=
  try_catch
    (emit by_manager "gdrive-setup-start" None >>>
     let! token := GoogleDriveManager.authenticate (auth_run env) in
     let! backupFolderId :=
       if negb (truthy backupFolderId) then
         let! folderInfo := GoogleDriveManager.createFolder (python env 0%nat) in
         let! folder_id := prop folderInfo "folder_id" in
         GoogleDriveManager.createFolder (python env 1%nat) >>>
         GoogleDriveManager.createFolder (python env 2%nat) >>>
         GoogleDriveManager.createFolder (python env 3%nat) >>>
         ret folder_id
       else ret backupFolderId in
     modify (fun w =>
       set_config (set_gdrive (mkGDrive (Some true) backupFolderId
                                        (Some (ISO (clock env 0%nat)))) (config w)) w) >>>
     _saveConfig >>>
     emit by_manager "gdrive-setup-complete"
       (Some (JObj [("folderId", json_or_null backupFolderId)])) >>>
     ret (JObj [("success", JBool true); ("folderId", json_or_null backupFolderId)]))
    (fun error =>
       emit by_manager "error" (error_payload "gdrive_setup_failed" error) >>>
       throw error).

(** [x] answers the request of [ollama.listModels]. *)
Definition listModels (x : Exchange) : M (list RemoteModel * list LocalModel) :=
  try_catch
    (let! ollamaModels := OllamaClient.listModels x in
     let! w := get_world in
     let local := Obj.keys (models (config w)) in
     let! remote :=
       match ollamaModels with
       | JArr items =>
           mapM (fun m =>
                   let! name := prop m "name" in
                   let! size := prop m "size" in
                   let! modified := prop m "modified_at" in
                   ret (mkRemote name size modified))
                items
       | _ => throw "ollamaModels.map is not a function"
       end in
     ret (remote,
          (fun name =>
             mkLocal name (Obj.get (models (config w)) name)
                     (path_join (modelPath (options w))
                                (replace_first ":"%char "_"%char name)))
            <$> local))
    (fun error =>
       emit by_manager "error" (error_payload "list_models" error) >>>
       throw error).

(** The body of the loop of [getModelStats]. *)
Definition count_model (stats : Stats) (row : string * ModelEntry) : Stats :=
  let model := row.2 in
  let stats := if synced model
               then mkStats (total stats) (S (stats_synced stats)) (stats_local stats)
                            (stats_remote stats)
               else stats in
  let stats := if String.eqb (source model) "local"
               then mkStats (total stats) (stats_synced stats) (S (stats_local stats))
                            (stats_remote stats)
               else stats in
  if String.eqb (source model) "ollama"
  then mkStats (total stats) (stats_synced stats) (stats_local stats)
               (S (stats_remote stats))
  else stats.

Definition getModelStats (w : World) : Stats :=
  foldl count_model
        (mkStats (length (Obj.keys (models (config w)))) 0 0 0)
        (Obj.entries (models (config w))).

(** The body of the loop of [exportModel]. *)
Definition export_file (trainingDir outputPath file : string) : M unit :=
  let src := path_join trainingDir file in
  let dst := path_join outputPath file in
  let! w := get_world in
  when (bool_decide (src ∈ regular_files w)) (copyFileSync src dst).

Definition exportModel (trainingId outputPath : string) : M Json :=
  try_catch
    (let! w := get_world in
     let trainingDir := path_join (trainingPath (options w)) trainingId in
     let! found := existsSync trainingDir in
     if negb found then throw ("Training not found: " +:+ trainingId) else
     mkdirSync outputPath >>>
     let! files := readdirSync trainingDir in
     forEach (export_file trainingDir outputPath) files >>>
     emit by_manager "export-complete"
       (Some (JObj [("trainingId", JStr trainingId); ("outputPath", JStr outputPath)])) >>>
     ret (JObj [("success", JBool true); ("path", JStr outputPath)]))
    (fun error =>
       emit by_manager "error" (error_payload "export_failed" error) >>>
       throw error).
End ModelManager.
End ModelManager.

(** * The vocabulary of the properties *)

(** ** Lines of a text *)

(** The lines of [s] that a newline ends, and what follows the last one. *)
Definition complete_lines (s : string) : list string := removelast (split_nl s).
Definition pending (s : string) : string := List.last (split_nl s) EmptyString.

(** The chunks of a body put together. *)
Definition join (chunks : list string) : string := foldr String.app EmptyString chunks.

(** ** Parsing the whole body at once *)

Section WholeBody.
Context `{Runtime}.

(** One ['data'] event of a line-buffered parser whose per-line handler
    [h] carries a local state: both parsers of the client have this shape. *)
Definition feed {S} (h : S -> string -> M S) (st : S * string) (chunk : string)
    : M (S * string) :=
  let lines := split_nl (st.2 +:+ chunk) in
  let! s := foldM h st.1 (removelast lines) in
  ret (s, List.last lines EmptyString).

(** The record a line holds, if it holds one. *)
Definition record_of (line : string) : option Json :=
  if blank line then None
  else match JSON_parse line with inl v => Some v | inr _ => None end.

(** The records of a newline-delimited body, each line parsed on its own. *)
Definition records_of_body (body : string) : list Json :=
  omap record_of (complete_lines body).

(** What [pullModel] does with one record. *)
Definition forward (modelName : string) (onProgress : option (Json -> M unit))
    (status : Json) : M unit :=
  try_catch
    (match onProgress with Some f => f status | None => ret tt end >>>
     emit by_ollama "progress"
       (Some (JObj [("model", JStr modelName); ("status", status)])))
    (fun _ => ret tt).




End WholeBody.

(** ** What an operation leaves alone *)

(** [keeps R m]: whatever its outcome, [m] takes a world to one related to
    it by [R]. *)
Definition keeps {A} (R : relation World) (m : M A) : Prop :=
  forall w, R w (m w).2.

(** ** Pulling *)

(** [{ status: 'skipped', model }] *)
Definition skipped (modelName : string) : Json :=
  JObj [("status", JStr "skipped"); ("model", JStr modelName)].

(** The path [modelExists] looks for. *)
Definition local_copy (modelName : string) (w : World) : string :=
  path_join (ollama_modelPath (options w)) (replace_first ":"%char "_"%char modelName).

(** What a pull never writes to: the options, the file system and the
    settings. *)
Definition pull_frame : relation World := fun w w' =>
  options w' = options w /\ directories w' = directories w /\
  regular_files w' = regular_files w /\ settings (config w') = settings (config w).


(** ** The manifest and its file *)

(** The manifest file holds the manifest the process has in memory. *)
Definition saved (w : World) : Prop := config_file w = Some (Manifest (config w)).

(** [{ success: true, model }] *)
Definition succeeded (modelName : string) : Json :=
  JObj [("success", JBool true); ("model", JStr modelName)].


(** [{ success: true, trainingId, outputName }] *)
Definition trained (trainingId outputName : string) : Json :=
  JObj [("success", JBool true); ("trainingId", JStr trainingId);
        ("outputName", JStr outputName)].

(** What the two clients never write to: the manifest, its file and the
    options. *)
Definition manifest_frame : relation World := fun w w' =>
  options w' = options w /\ config w' = config w /\ config_file w' = config_file w.

(** ** Error events *)

(** The events that report a failure: ['error'], and ['pull-error'] for a
    pull. *)
Definition is_error (ev : Event) : bool :=
  String.eqb (name ev) "error" || String.eqb (name ev) "pull-error".

Definition same_emitter (a b : Emitter) : bool :=
  match a, b with
  | by_ollama, by_ollama | by_gdrive, by_gdrive | by_manager, by_manager => true
  | _, _ => false
  end.

(** The number of error events [em] has emitted so far. *)
Definition errors_by (em : Emitter) (w : World) : nat :=
  length (filter (fun ev => same_emitter (emitter ev) em && is_error ev = true) (events w)).

(** No emitter has reported a failure between the two worlds. *)
Definition no_new_errors : relation World := fun w w' =>
  forall em, errors_by em w' = errors_by em w.

(** A relation that does not look at the subprocess counter, the timers,
    the file system or the events that are not error events. *)
Class Tolerates (R : relation World) : Prop := {
  tolerates_spawned w n : R w (set_spawned n w);
  tolerates_timers w t : R w (set_timers t w);
  tolerates_directories w d : R w (set_directories d w);
  tolerates_regular_files w f : R w (set_regular_files f w);
  tolerates_event w ev : is_error ev = false -> R w (set_events (events w ++ [ev]) w)
}.

(** The callback of a script keeps [R]. *)
Definition reports (R : relation World) (options : ExecOptions) : Prop :=
  forall f, onProgress options = Some f -> forall v, keeps R (f v).

(** ** Synchronising *)

(** What the loop of [syncToGoogleDrive] does to an entry at the clock
    reading [t]. *)
Definition stamp (t : Z) (e : ModelEntry) : ModelEntry :=
  set_syncedAt (ISO t) (set_synced true e).

(** [w] with another [config.models]. *)
Definition with_models (ms : list (string * ModelEntry)) (w : World) : World :=
  set_config (set_models ms (config w)) w.

(** ** The operations of the manager *)

(** A call of one of the operations that write the manifest. *)
Inductive Call : Type :=
  | PullModel (modelName : string)
  | TrainModel (modelName trainingData outputName : string)
  | SyncToGoogleDrive (folderIdOrConfig : option Json)
  | RestoreFromGoogleDrive
  | DeleteModel (modelName : string) (deleteLocal deleteRemote : bool)
  | SetupGoogleDrive (backupFolderId : option Json).

Definition perform `{Runtime} (c : Call) (env : Env) : M Json :=
  match c with
  | PullModel modelName => ModelManager.pullModel modelName env
  | TrainModel modelName trainingData outputName =>
      ModelManager.trainModel modelName trainingData outputName env
  | SyncToGoogleDrive folderIdOrConfig =>
      ModelManager.syncToGoogleDrive folderIdOrConfig env
  | RestoreFromGoogleDrive => ModelManager.restoreFromGoogleDrive env
  | DeleteModel modelName deleteLocal deleteRemote =>
      ModelManager.deleteModel modelName deleteLocal deleteRemote env
  | SetupGoogleDrive backupFolderId => ModelManager.setupGoogleDrive backupFolderId env
  end.

(** The call was a pull that found the model and skipped the transfer. *)
Definition was_skipped (c : Call) (r : Json) : Prop :=
  exists modelName, c = PullModel modelName /\ r = skipped modelName.

(** [post Q m]: when [m] resolves, [Q] holds of its value and of the world
    it leaves. *)
Definition post {A} (Q : A -> World -> Prop) (m : M A) : Prop :=
  forall w a w', m w = (Resolved a, w') -> Q a w'.

(** ** Retrying a script *)

(** The ['retry'] events of the cloud client, oldest first. *)
Definition is_retry (ev : Event) : bool :=
  same_emitter (emitter ev) by_gdrive && String.eqb (name ev) "retry".

Definition retries (w : World) : list Event :=
  filter (fun ev => is_retry ev = true) (events w).

(** What a callback of a script may not do: start a subprocess, wait, or
    emit ['retry']. *)
Definition retry_frame : relation World := fun w w' =>
  spawned w' = spawned w /\ timers w' = timers w /\ retries w' = retries w.

(** The callback of a script, when there is one, returns and keeps
    [retry_frame]. *)
Definition quiet (options : ExecOptions) : Prop :=
  forall f, onProgress options = Some f ->
  forall v w, (f v w).1 = Resolved tt /\ retry_frame w (f v w).2.

Section Retry.
Context `{Runtime}.

(** What one run of a script comes to: the value its output parses to, or
    the message the attempt is rejected with. *)
Definition script_value (r : Script_run) : Json + string :=
  match exit r with
  | ExecError message => inr ("Script execution failed: " +:+ message)
  | ExecOutput stdout =>
      match JSON_parse stdout with
      | inl v => inl v
      | inr e => inr ("Failed to parse script output: " +:+ e)
      end
  end.

Definition failure_of (r : Script_run) : string :=
  match script_value r with inl _ => EmptyString | inr e => e end.

(** The number of attempts made from attempt [attempt] on when [remaining]
    are allowed: up to the first run that gives a value. *)
Fixpoint tries (runs : nat -> Script_run) (remaining attempt : nat) : nat :=
  match remaining with
  | O => O
  | S remaining' =>
      match script_value (runs attempt) with
      | inl _ => 1
      | inr _ => S (tries runs remaining' (S attempt))
      end
  end.

(** The delays before the attempts [attempt + 1], ..., [attempt + count], in
    milliseconds. *)
Definition backoff (attempt count : nat) : list Z :=
  (fun j => 2 ^ Z.of_nat (attempt + j) * 1000) <$> seq 0 count.

(** The ['retry'] events that announce those attempts. *)
Definition notices (runs : nat -> Script_run) (attempt count : nat) : list Event :=
  (fun j => mkEvent by_gdrive "retry"
              (retry_payload (attempt + j + 1) (failure_of (runs (attempt + j)%nat))))
    <$> seq 0 count.

(** The outcome of the last attempt made. *)
Definition settled (r : Script_run) : Outcome Json :=
  match script_value r with inl v => Resolved v | inr e => Rejected e end.
End Retry.

(** ** Counting the reports of a failure *)



(** The manifest [_loadConfig] reads from the file. *)
Definition loaded (file : option Stored) : Config :=
  match file with
  | Some (Manifest c) => c
  | Some (Unparseable _) | None => empty_config
  end.

(** The manifest in memory is the one a new manager would read from the
    file. *)
Definition in_step (w : World) : Prop := config w = loaded (config_file w).

(** [settles m]: whatever its outcome, [m] takes a world in which memory and
    file are in step to one in which they are. *)
Definition settles {A} (m : M A) : Prop := forall w, in_step w -> in_step (m w).2.

(** [lands m]: [m] always leaves the manifest file up to date. *)
Definition lands {A} (m : M A) : Prop := forall w, saved (m w).2.

(** The one call that takes an entry out of the manifest and then talks to
    the serving endpoint before it writes the file. *)
Definition deletes_both (c : Call) : Prop :=
  exists modelName, c = DeleteModel modelName true true.

(** * Scenarios *)

(** [JSON.parse] as far as the scenarios go: the text of the empty object
    is parsed, the other texts they exchange are not JSON. *)
Definition scenario_parse : Runtime := fun text =>
  if String.eqb text "{}" then inl (JObj []) else inr "Unexpected token".

(** The default paths below a home directory. *)
Definition home_options : Options :=
  mkOptions "/home/user/.copilot/models" "/home/user/.copilot/models.json"
            "/home/user/.copilot/training" "/home/user/.copilot/models"
            "/home/user/.copilot/models" "/home/user/.copilot/gdrive-token.json" true.

(** The process before [new ModelManager()]. *)
Definition boot (file : option Stored) (dirs files : gset string) : World :=
  mkWorld home_options empty_config file dirs files [] [] 0.

(** A first start on a machine that has no manifest yet, with the training
    data of the scenarios. *)
Definition first_start : World :=
  (ModelManager.constructor (H := scenario_parse) (boot None ∅ {["/home/user/data.txt"]})).2.

(** An outside world in which every request and every script succeeds. *)
Definition cooperative_with (clock : nat -> Z) : Env :=
  mkEnv (ProbeStatus 200) (Response 200 []) (Response 200 ["{}"]) (Response 200 [])
        (mkRun [] (ExecOutput "{}")) (fun _ _ => mkRun [] (ExecOutput "{}")) clock.

(** The clock reads [t], [t + 1], ... during the operation. *)
Definition cooperative (t : Z) : Env := cooperative_with (fun i => t + Z.of_nat i).

(** The whole operation runs within the millisecond [t]. *)
Definition within_millisecond (t : Z) : Env := cooperative_with (fun _ => t).

(** [first_start] after a restore put a copy of the model on the disk. *)
Definition with_local_copy (modelName : string) (w : World) : World :=
  set_directories ({[local_copy modelName w]} ∪ directories w) w.

(** The endpoint refuses the delete request. *)
Definition refusing_delete (t : Z) : Env :=
  mkEnv (ProbeStatus 200) (Response 200 []) (Response 200 ["{}"]) (Response 404 [])
        (mkRun [] (ExecOutput "{}")) (fun _ _ => mkRun [] (ExecOutput "{}"))
        (fun i => t + Z.of_nat i).

(** [first_start] after "alpha" was pulled. *)
Definition alpha_pulled : World :=
  (ModelManager.pullModel (H := scenario_parse) "alpha" (cooperative 1000) first_start).2.

(** The cloud backup was set up for the folder "folder-1", then "alpha"
    and "beta" were pulled. *)
Definition two_models_pulled : World :=
  let w1 := (ModelManager.setupGoogleDrive (H := scenario_parse)
               (Some (JStr "folder-1")) (cooperative 500) first_start).2 in
  let w2 := (ModelManager.pullModel (H := scenario_parse) "alpha" (cooperative 1000) w1).2 in
  (ModelManager.pullModel (H := scenario_parse) "beta" (cooperative 2000) w2).2.



(** A line feed, and a body of three records cut inside the first and the
    second; the third is not terminated. *)
Definition LF : string := String newline EmptyString.

Definition three_records : list string :=
  ["{"; "}" +:+ LF +:+ "{}"; LF +:+ "{}"].
(** * Properties *)

(** ** Computations *)

Lemma bind_assoc {A B C} (m : M A) (k : A -> M B) (k' : B -> M C) w :
  bind (bind m k) k' w = bind m (fun a => bind (k a) k') w.
Proof. unfold bind. destruct (m w) as [[a|e] w']; reflexivity. Qed.

Lemma bind_ext {A B} (m : M A) (k k' : A -> M B) w :
  (forall a w', k a w' = k' a w') -> bind m k w = bind m k' w.
Proof. intros Hk. unfold bind. destruct (m w) as [[a|e] w']; auto. Qed.

Lemma bind_cong_l {A B} (m m' : M A) (k : A -> M B) w :
  m w = m' w -> bind m k w = bind m' k w.
Proof. intros Hm. unfold bind. rewrite Hm. reflexivity. Qed.

Lemma foldM_app {A S} (body : S -> A -> M S) l1 l2 s w :
  foldM body s (l1 ++ l2) w = bind (foldM body s l1) (fun s' => foldM body s' l2) w.
Proof.
  revert s w. induction l1 as [|x l1 IH]; intros s w; simpl.
  - reflexivity.
  - rewrite bind_assoc. apply bind_ext. intros s' w'. apply IH.
Qed.

Lemma bind_foldM_app {A S B} (body : S -> A -> M S) l1 l2 s (k : S -> M B) w :
  bind (foldM body s (l1 ++ l2)) k w =
  bind (foldM body s l1) (fun s' => bind (foldM body s' l2) k) w.
Proof.
  rewrite <- bind_assoc. unfold bind at 1. rewrite foldM_app. reflexivity.
Qed.

Lemma forEach_foldM {A} (body : A -> M unit) l w :
  forEach body l w = foldM (fun _ x => body x) tt l w.
Proof.
  revert w. induction l as [|x l IH]; intros w; simpl; [reflexivity|].
  unfold bind. destruct (body x w) as [[[]|e] w']; auto.
Qed.

(** ** Lines of a text *)

Lemma string_app_cons c s t : String c s +:+ t = String c (s +:+ t).
Proof. reflexivity. Qed.

Lemma string_app_nil_l s : EmptyString +:+ s = s.
Proof. reflexivity. Qed.

Lemma string_app_nil_r s : s +:+ EmptyString = s.
Proof. induction s as [|c s IH]; [reflexivity|]. rewrite string_app_cons, IH. reflexivity. Qed.

Lemma string_app_assoc s t u : (s +:+ t) +:+ u = s +:+ (t +:+ u).
Proof. induction s as [|c s IH]; [reflexivity|]. rewrite !string_app_cons, IH. reflexivity. Qed.

Lemma split_nl_cons c s :
  split_nl (String c s) =
    if Ascii.eqb c newline then EmptyString :: split_nl s
    else String c (hd EmptyString (split_nl s)) :: tl (split_nl s).
Proof. simpl. destruct (Ascii.eqb c newline); [reflexivity|]. destruct (split_nl s); reflexivity. Qed.

Lemma split_nl_not_nil s : split_nl s <> [].
Proof. destruct s as [|c s]; [discriminate|]. rewrite split_nl_cons. destruct (Ascii.eqb c newline); discriminate. Qed.

Lemma split_nl_hd_tl s : split_nl s = hd EmptyString (split_nl s) :: tl (split_nl s).
Proof. pose proof (split_nl_not_nil s). destruct (split_nl s); [contradiction|reflexivity]. Qed.

(** Appending text only touches the pending line. *)
Lemma split_nl_app a b :
  split_nl (a +:+ b) = complete_lines a ++ split_nl (pending a +:+ b).
Proof.
  unfold complete_lines, pending.
  induction a as [|c a IH].
  - reflexivity.
  - rewrite string_app_cons, !split_nl_cons.
    destruct (Ascii.eqb c newline) eqn:Hc.
    + rewrite IH. pose proof (split_nl_not_nil a).
      destruct (split_nl a) as [|l ls] eqn:Ha; [contradiction|]. reflexivity.
    + rewrite IH. rewrite (split_nl_hd_tl a) at 1 2 3 4. cbn [hd tl].
      destruct (tl (split_nl a)) as [|l' ls'] eqn:Ht.
      * cbn [removelast List.last app hd tl]. rewrite string_app_cons, split_nl_cons, Hc.
        reflexivity.
      * cbn [removelast List.last app hd tl].
        destruct (removelast (l' :: ls')); reflexivity.
Qed.

Lemma complete_lines_app a b :
  complete_lines (a +:+ b) = complete_lines a ++ complete_lines (pending a +:+ b).
Proof.
  unfold complete_lines at 1. rewrite split_nl_app.
  rewrite removelast_app by apply split_nl_not_nil. reflexivity.
Qed.

Lemma last_app_r {A} (l1 l2 : list A) d : l2 <> [] -> List.last (l1 ++ l2) d = List.last l2 d.
Proof.
  intros Hl2. induction l1 as [|x l1 IH]; [reflexivity|].
  simpl. destruct (l1 ++ l2) eqn:E; [|exact IH].
  apply app_eq_nil in E as [_ ->]. contradiction.
Qed.

Lemma pending_app a b : pending (a +:+ b) = pending (pending a +:+ b).
Proof.
  unfold pending at 1. rewrite split_nl_app.
  rewrite last_app_r by apply split_nl_not_nil. reflexivity.
Qed.

(** The pending text has no newline in it. *)
Lemma split_nl_pending s : split_nl (pending s) = [pending s].
Proof.
  unfold pending. induction s as [|c s IH]; [reflexivity|].
  rewrite split_nl_cons. destruct (Ascii.eqb c newline) eqn:Hc.
  - pose proof (split_nl_not_nil s). simpl.
    destruct (split_nl s); [contradiction|exact IH].
  - rewrite (split_nl_hd_tl s) in IH |- *. cbn [hd tl].
    destruct (tl (split_nl s)) as [|l ls] eqn:Ht.
    + cbn [List.last] in *. rewrite split_nl_cons, Hc, IH. reflexivity.
    + exact IH.
Qed.

Lemma complete_lines_pending s : complete_lines (pending s) = [].
Proof. unfold complete_lines. rewrite split_nl_pending. reflexivity. Qed.

Lemma pending_pending s : pending (pending s) = pending s.
Proof. unfold pending at 1. rewrite split_nl_pending. reflexivity. Qed.

(** ** Objects *)

Section ObjFacts.
Context {V : Type}.
Implicit Types (o : list (string * V)) (k : string) (v : V).

Lemma get_set_eq o k v : Obj.get (Obj.set o k v) k = Some v.
Proof.
  induction o as [|[k' v'] o IH]; cbn [Obj.set Obj.get].
  - rewrite String.eqb_refl. reflexivity.
  - destruct (String.eqb k' k) eqn:E; cbn [Obj.get]; rewrite E; auto.
Qed.

Lemma get_set_ne o k k' v : k <> k' -> Obj.get (Obj.set o k v) k' = Obj.get o k'.
Proof.
  intros Hne. induction o as [|[k0 v0] o IH]; cbn [Obj.set Obj.get].
  - destruct (String.eqb_spec k k'); [contradiction|reflexivity].
  - destruct (String.eqb_spec k0 k) as [->|]; cbn [Obj.get].
    + destruct (String.eqb_spec k k'); [contradiction|reflexivity].
    + rewrite IH. reflexivity.
Qed.


Lemma elem_get_Some o k : k ∈ o.*1 -> is_Some (Obj.get o k).
Proof.
  induction o as [|[k' v'] o IH]; cbn [Obj.get fmap list_fmap fst].
  - intros Hin. inversion Hin.
  - destruct (String.eqb_spec k' k) as [->|Hne]; [eauto|].
    intros Hin. apply IH. inversion Hin; subst; [contradiction|assumption].
Qed.

Lemma array_index_pretty k n : Obj.array_index k = Some n -> pretty n = k.
Proof.
  unfold Obj.array_index.
  destruct (String.eqb_spec (pretty (Obj.digits_value 0 k)) k) as [E|]; [|discriminate].
  destruct (_ <? _)%N; [|discriminate]. intros [= <-]. exact E.
Qed.

(** [Object.keys] lists the keys of the object, all of them. *)
Lemma elem_of_keys o k : k ∈ Obj.keys o <-> k ∈ o.*1.
Proof.
  unfold Obj.keys, Obj.index_keys, Obj.named_keys.
  rewrite elem_of_app, list_elem_of_fmap, list_elem_of_filter. split.
  - intros [(n & -> & Hn)|[_ Hk]]; [|exact Hk].
    rewrite merge_sort_Permutation in Hn.
    apply list_elem_of_omap in Hn as ([k' v'] & Hin & Hidx).
    cbn [fst] in Hidx. apply array_index_pretty in Hidx as ->.
    apply list_elem_of_fmap. exists (k', v'). split; [reflexivity|exact Hin].
  - intros Hin. destruct (Obj.array_index k) as [n|] eqn:Hidx; [left|right; auto].
    exists n. split; [symmetry; apply array_index_pretty, Hidx|].
    rewrite merge_sort_Permutation.
    apply list_elem_of_fmap in Hin as ([k' v'] & -> & Hin).
    apply list_elem_of_omap. exists (k', v'). split; [exact Hin|exact Hidx].
Qed.
End ObjFacts.

(** ** The streaming parsers of the serving client *)

Section Streaming.
Context `{Runtime}.

Lemma feed_chunks {S} (h : S -> string -> M S) chunks s buffer w :
  foldM (feed h) (s, pending buffer) chunks w =
  bind (foldM h s (complete_lines (pending buffer +:+ join chunks)))
       (fun s' => ret (s', pending (pending buffer +:+ join chunks))) w.
Proof.
  revert s buffer w. induction chunks as [|c cs IH]; intros s buffer w.
  - cbn [join foldr foldM]. rewrite string_app_nil_r, complete_lines_pending, pending_pending.
    reflexivity.
  - cbn [join foldr foldM]. fold (join cs).
    set (a := pending buffer +:+ c).
    replace (pending buffer +:+ c +:+ join cs) with (a +:+ join cs)
      by (unfold a; apply string_app_assoc).
    rewrite complete_lines_app, (pending_app a), bind_foldM_app.
    unfold feed at 1. cbn [fst snd]. fold a.
    fold (complete_lines a). fold (pending a).
    rewrite bind_assoc. apply bind_ext. intros s' w'.
    unfold bind at 1, ret at 1. apply IH.
Qed.

Lemma pull_line_record modelName onProgress line w :
  OllamaClient.pull_line modelName onProgress line w =
  match record_of line with
  | Some status => forward modelName onProgress status w
  | None => (Resolved tt, w)
  end.
Proof.
  unfold OllamaClient.pull_line, record_of, forward, when.
  destruct (blank line); [reflexivity|]. cbn [negb].
  destruct (JSON_parse line); reflexivity.
Qed.


Lemma foldM_omap {A B S} (f : A -> option B) (h : S -> A -> M S) (g : S -> B -> M S) :
  (forall s x w, h s x w = match f x with Some y => g s y w | None => (Resolved s, w) end) ->
  forall l s w, foldM h s l w = foldM g s (omap f l) w.
Proof.
  intros Hh l. induction l as [|x l IH]; intros s w; [reflexivity|].
  cbn [foldM omap list_omap]. unfold bind at 1. rewrite Hh.
  destruct (f x) as [y|].
  - cbn [foldM]. unfold bind. destruct (g s y w) as [[s'|e] w']; auto.
  - apply IH.
Qed.
End Streaming.

Section StreamingProofs.
Context `{Runtime}.

Lemma pull_data_feed modelName onProgress chunks buffer w :
  foldM (OllamaClient.pull_data modelName onProgress) buffer chunks w =
  bind (foldM (feed (fun _ : unit => OllamaClient.pull_line modelName onProgress))
              (tt, buffer) chunks)
       (fun st => ret st.2) w.
Proof.
  revert buffer w. induction chunks as [|c cs IH]; intros buffer w; [reflexivity|].
  cbn [foldM]. unfold bind at 1 2 3.
  unfold OllamaClient.pull_data at 1, feed at 1, bind, ret. cbn [fst snd].
  rewrite forEach_foldM.
  destruct (foldM _ tt _ w) as [[[]|e] w']; [|reflexivity].
  rewrite IH. reflexivity.
Qed.

Lemma pull_stream modelName onProgress chunks w :
  foldM (OllamaClient.pull_data modelName onProgress) EmptyString chunks w =
  bind (forEach (forward modelName onProgress) (records_of_body (join chunks)))
       (fun _ => ret (pending (join chunks))) w.
Proof.
  rewrite pull_data_feed.
  erewrite bind_cong_l;
    [|change (tt, EmptyString) with (tt, pending EmptyString); apply feed_chunks].
  change (pending EmptyString +:+ join chunks) with (join chunks).
  rewrite bind_assoc.
  erewrite bind_cong_l;
    [|apply (foldM_omap record_of _ (fun _ : unit => forward modelName onProgress));
      intros [] x w'; apply pull_line_record].
  fold (records_of_body (join chunks)).
  symmetry. erewrite bind_cong_l; [|apply forEach_foldM].
  apply bind_ext. intros [] w'. reflexivity.
Qed.

End StreamingProofs.


(** ** Completion of a pull *)

Section PullStatus.
Context `{Runtime}.

Lemma forward_resolves modelName onProgress status w :
  exists w', forward modelName onProgress status w = (Resolved tt, w').
Proof.
  unfold forward, try_catch.
  destruct (bind _ _ w) as [[[]|e] w'] eqn:E; eauto.
Qed.

Lemma forEach_forward_resolves modelName onProgress records w :
  exists w', forEach (forward modelName onProgress) records w = (Resolved tt, w').
Proof.
  revert w. induction records as [|r rs IH]; intros w; cbn [forEach].
  - eexists; reflexivity.
  - unfold bind. destruct (forward_resolves modelName onProgress r w) as [w1 ->].
    apply IH.
Qed.

(** The ['end'] handler of [pullModel] resolves for status 200 and for no
    other status. *)
Lemma pullModel_resolves_iff_200 modelName onProgress statusCode chunks w :
  (exists r w', OllamaClient.pullModel modelName onProgress
                  (Response statusCode chunks) w = (Resolved r, w'))
  <-> statusCode = 200.
Proof.
  unfold OllamaClient.pullModel. unfold bind at 1.
  rewrite pull_stream. unfold bind at 1.
  destruct (forEach_forward_resolves modelName onProgress
              (records_of_body (join chunks)) w) as [w1 ->].
  unfold ret at 1. destruct (Z.eqb_spec statusCode 200) as [->|Hne].
  - split; [reflexivity|]. intros _. eexists _, _. reflexivity.
  - split; [|contradiction]. intros (r & w' & [=]).
Qed.
End PullStatus.

(** C4: the serving client's [pullModel] does not treat the whole success
    class as success: a response that completes with status 201 is rejected
    with the transfer error. *)
Theorem pullModel_rejects_status_201 `{Runtime}
    (modelName : string) (onProgress : option (Json -> M unit)) (w : World) :
  OllamaClient.pullModel modelName onProgress (Response 201 []) w =
  (Rejected "Failed to pull model: HTTP 201", w).
Proof. reflexivity. Qed.

(** ** What an operation leaves alone *)


Section Keeps.
Context (R : relation World) `{!PreOrder R}.

Lemma keeps_ret {A} (a : A) : keeps R (ret a).
Proof. intros w. reflexivity. Qed.

Lemma keeps_throw {A} e : keeps R (@throw A e).
Proof. intros w. reflexivity. Qed.

Lemma keeps_get_world : keeps R get_world.
Proof. intros w. reflexivity. Qed.

Lemma keeps_bind {A B} (m : M A) (k : A -> M B) :
  keeps R m -> (forall a, keeps R (k a)) -> keeps R (bind m k).
Proof.
  intros Hm Hk w. unfold bind. specialize (Hm w).
  destruct (m w) as [[a|e] w1]; cbn [snd] in *; [|exact Hm].
  etrans; [exact Hm|apply Hk].
Qed.

Lemma keeps_try_catch {A} (m : M A) (h : string -> M A) :
  keeps R m -> (forall e, keeps R (h e)) -> keeps R (try_catch m h).
Proof.
  intros Hm Hh w. unfold try_catch. specialize (Hm w).
  destruct (m w) as [[a|e] w1]; cbn [snd] in *; [exact Hm|].
  etrans; [exact Hm|apply Hh].
Qed.

Lemma keeps_when b (m : M unit) : keeps R m -> keeps R (when b m).
Proof. intros Hm. destruct b; [exact Hm|apply keeps_ret]. Qed.

Lemma keeps_forEach {A} (body : A -> M unit) l :
  (forall x, keeps R (body x)) -> keeps R (forEach body l).
Proof.
  intros Hb. induction l as [|x l IH]; cbn [forEach].
  - apply keeps_ret.
  - apply keeps_bind; auto.
Qed.

Lemma keeps_foldM {A S} (body : S -> A -> M S) l s :
  (forall s x, keeps R (body s x)) -> keeps R (foldM body s l).
Proof.
  intros Hb. revert s. induction l as [|x l IH]; intros s; cbn [foldM].
  - apply keeps_ret.
  - apply keeps_bind; auto.
Qed.

Lemma keeps_modify f : (forall w, R w (f w)) -> keeps R (modify f).
Proof. intros Hf w. apply Hf. Qed.
End Keeps.

(** Takes a computation apart along its control structure; what is left
    are the places where it writes to the world. *)
Ltac keeps_step :=
  lazymatch goal with
  | |- keeps _ (bind _ _) => apply keeps_bind; [try apply _| |intros ?]
  | |- keeps _ (try_catch _ _) => apply keeps_try_catch; [try apply _| |intros ?]
  | |- keeps _ (ret _) => apply keeps_ret; try apply _
  | |- keeps _ (throw _) => apply keeps_throw; try apply _
  | |- keeps _ get_world => apply keeps_get_world; try apply _
  | |- keeps _ (when _ _) => apply keeps_when; [try apply _|]
  | |- keeps _ (forEach _ _) => apply keeps_forEach; [try apply _|intros ?]
  | |- keeps _ (foldM _ _ _) => apply keeps_foldM; [try apply _|intros ? ?]
  | |- keeps _ (modify _) => apply keeps_modify; intros ?
  | |- keeps _ (emit _ _ _) => unfold emit
  | |- keeps _ (sleep _) => unfold sleep
  | |- keeps _ (mkdirSync _) => unfold mkdirSync
  | |- keeps _ (existsSync _) => intros ?; cbn [existsSync snd]; reflexivity
  | |- keeps _ (isDirectory _) => intros ?; cbn [isDirectory snd]; reflexivity
  | |- keeps _ (prop ?v _) => destruct v; cbn [prop]
  | |- keeps _ (if ?b then _ else _) => destruct b
  | |- keeps _ (match ?x with _ => _ end) => destruct x
  | |- keeps _ (let _ := _ in _) => cbv zeta
  end.

(** ** Running an operation *)

Arguments ret {A} a w /.
Arguments throw {A} message w /.
Arguments get_world w /.
Arguments modify f w /.
Arguments bind {A B} m k w /.
Arguments try_catch {A} m h w /.
Arguments emit em nm p w /.
Arguments sleep ms w /.
Arguments mkdirSync p w /.
Arguments existsSync p w /.
Arguments isDirectory p w /.
Arguments copyFileSync src dst w /.
Arguments rmSync p w /.

(** Runs the straight-line part of a computation applied to a world. *)
Ltac run :=
  cbn [bind ret throw try_catch emit modify get_world when existsSync isDirectory
       mkdirSync copyFileSync rmSync sleep fst snd negb andb orb
       options config config_file directories regular_files events timers spawned
       set_config set_config_file set_directories set_regular_files set_events
       set_timers set_spawned models settings gdrive set_models set_gdrive
       OllamaClient.checkHealth OllamaClient.modelExists
       GoogleDriveManager.isAuthenticated
       ModelManager.store_entry ModelManager._saveConfig].

(** ** Pulling twice *)

#[local] Instance pull_frame_preorder : PreOrder pull_frame.
Proof.
  split.
  - intros w. repeat split.
  - intros w1 w2 w3 (?&?&?&?) (?&?&?&?). repeat split; congruence.
Qed.

Section PullTwice.
Context `{Runtime}.

Lemma pullModel_keeps_frame modelName env :
  keeps pull_frame (ModelManager.pullModel modelName env).
Proof.
  unfold ModelManager.pullModel, OllamaClient.pullModel, OllamaClient.pull_data,
    OllamaClient.pull_line, OllamaClient.showModel, OllamaClient.checkHealth,
    OllamaClient.modelExists, ModelManager.store_entry, ModelManager._saveConfig.
  repeat keeps_step; repeat split.
Qed.

(** The value [OllamaClient.pullModel] resolves with. *)
Lemma ollama_pullModel_result modelName onProgress x w r w' :
  OllamaClient.pullModel modelName onProgress x w = (Resolved r, w') ->
  r = JObj [("success", JBool true); ("model", JStr modelName)].
Proof.
  destruct x as [statusCode chunks|message]; [|discriminate].
  unfold OllamaClient.pullModel, bind.
  destruct (foldM _ _ chunks w) as [[b|e] w1]; [|discriminate].
  destruct (statusCode =? 200); [|discriminate].
  intros [= <- _]. reflexivity.
Qed.
End PullTwice.

Section PullChecked.
Context `{Runtime}.

(** A pull against a healthy endpoint that may not overwrite. *)
Lemma pullModel_checked modelName env w :
  health env = ProbeStatus 200 ->
  truthy (overwriteModels (settings (config w))) = false ->
  let r := ModelManager.pullModel modelName env w in
  if bool_decide (local_copy modelName w ∈ directories w ∪ regular_files w)
  then r.1 = Resolved (skipped modelName) /\ config r.2 = config w
       /\ config_file r.2 = config_file w
  else r.1 <> Resolved (skipped modelName).
Proof.
  intros Hhealthy Hkeep.
  assert (E : bool_decide (local_copy modelName w ∈ directories w ∪ regular_files w)
              = bool_decide (local_copy modelName w ∈ directories w)
                || bool_decide (local_copy modelName w ∈ regular_files w)).
  { etrans; [|apply bool_decide_or]. apply bool_decide_ext, elem_of_union. }
  rewrite E. clear E.
  unfold ModelManager.pullModel. rewrite Hhealthy. run.
  change (200 =? 200) with true. run.
  rewrite Hkeep. fold (local_copy modelName w). cbn [negb]. rewrite andb_true_r.
  destruct (_ || _).
  - run. auto.
  - run.
    match goal with
    | |- context [OllamaClient.pullModel ?a ?b ?c ?d] =>
        destruct (OllamaClient.pullModel a b c d) as [[r|e] w2] eqn:Epull
    end; [|discriminate].
    apply ollama_pullModel_result in Epull as ->.
    match goal with
    | |- context [OllamaClient.showModel ?a ?b ?c] =>
        destruct (OllamaClient.showModel a b c) as [[i|e] w3]
    end; discriminate.
Qed.
End PullChecked.

(** Two pulls in sequence, under default settings and with the endpoint
    healthy at the second: the second is skipped exactly when a file or
    directory for the model exists in the serving client's model directory,
    which the first pull never creates; a skipped pull leaves the manifest,
    and with it every timestamp, and the manifest file unchanged. *)
Lemma second_pull_skipped_iff_local_copy `{Runtime}
    (modelName : string) (env1 env2 : Env) (w : World) :
  overwriteModels (settings (config w)) = None ->
  health env2 = ProbeStatus 200 ->
  let w1 := (ModelManager.pullModel modelName env1 w).2 in
  let second := ModelManager.pullModel modelName env2 w1 in
  (second.1 = Resolved (skipped modelName) <->
     local_copy modelName w ∈ directories w ∪ regular_files w)
  /\ (second.1 = Resolved (skipped modelName) ->
      config second.2 = config w1 /\ config_file second.2 = config_file w1).
Proof.
  intros Hdefault Hhealthy w1 second.
  destruct (pullModel_keeps_frame modelName env1 w) as (Ho & Hd & Hf & Hs).
  fold w1 in Ho, Hd, Hf, Hs.
  pose proof (pullModel_checked modelName env2 w1 Hhealthy) as Hsecond.
  rewrite Hs, Hdefault in Hsecond. specialize (Hsecond eq_refl).
  unfold local_copy in Hsecond. rewrite Ho, Hd, Hf in Hsecond.
  fold (local_copy modelName w) in Hsecond. cbv zeta in Hsecond. fold second in Hsecond.
  destruct (bool_decide_reflect
              (local_copy modelName w ∈ directories w ∪ regular_files w)) as [Hin|Hout].
  - destruct Hsecond as (? & ? & ?). tauto.
  - split; [split; [|intros ?]|intros ?]; contradiction.
Qed.

(** C1: on a first start with the endpoint healthy, a pull of "alpha"
    succeeds, and a second pull of it under default settings is not skipped:
    nothing was saved below the model directory, so it transfers again and
    replaces the entry's [pulledAt]. *)
Theorem second_pull_transfers_again :
  let first := ModelManager.pullModel (H := scenario_parse) "alpha" (cooperative 1000) first_start in
  let second := ModelManager.pullModel (H := scenario_parse) "alpha" (cooperative 2000) first.2 in
  overwriteModels (settings (config first_start)) = None
  /\ first.1 = Resolved (JObj [("success", JBool true); ("model", JStr "alpha")])
  /\ second.1 = Resolved (JObj [("success", JBool true); ("model", JStr "alpha")])
  /\ second.1 <> Resolved (skipped "alpha")
  /\ pulledAt <$> Obj.get (models (config first.2)) "alpha" = Some (Some (ISO 1000))
  /\ pulledAt <$> Obj.get (models (config second.2)) "alpha" = Some (Some (ISO 2000)).
Proof. vm_compute. repeat split; discriminate. Qed.

(** The same two pulls once a copy of the model is on the disk. *)
Lemma second_pull_skipped_with_local_copy :
  let w := with_local_copy "alpha" first_start in
  overwriteModels (settings (config w)) = None
  /\ health (cooperative 2000) = ProbeStatus 200
  /\ (ModelManager.pullModel (H := scenario_parse) "alpha" (cooperative 2000)
        (ModelManager.pullModel (H := scenario_parse) "alpha" (cooperative 1000) w).2).1
     = Resolved (skipped "alpha").
Proof.
  intros w. split; [reflexivity|]. split; [reflexivity|].
  apply (second_pull_skipped_iff_local_copy (H := scenario_parse)
           "alpha" (cooperative 1000) (cooperative 2000) w eq_refl eq_refl).
  apply (bool_decide_unpack _). vm_compute. exact I.
Defined.

(** ** Deleting *)



(** C3: a local and remote delete whose remote half fails has already taken
    the entry out of the manifest in memory, and returns without writing the
    file: the file still holds the entry. *)
Theorem failed_remote_delete_leaves_manifest_unsaved :
  let w := alpha_pulled in
  let r := ModelManager.deleteModel "alpha" true true (refusing_delete 3000) w in
  saved w
  /\ r.1 = Rejected "Failed to delete model: HTTP 404"
  /\ models (config r.2) = []
  /\ config_file r.2 = Some (Manifest (config w))
  /\ ~ saved r.2 /\ ~ in_step r.2.
Proof.
  unfold saved, in_step. vm_compute. repeat split; discriminate.
Qed.

(** ** Training *)





(** ** The cloud client leaves the manifest alone *)

#[local] Instance manifest_frame_preorder : PreOrder manifest_frame.
Proof.
  split.
  - intros w. repeat split.
  - intros w1 w2 w3 (?&?&?) (?&?&?). repeat split; congruence.
Qed.

#[local] Instance manifest_frame_tolerates : Tolerates manifest_frame.
Proof. split; intros; repeat split. Qed.

Lemma errors_by_app em w ev :
  errors_by em (set_events (events w ++ [ev]) w) =
  (errors_by em w + if same_emitter (emitter ev) em && is_error ev then 1 else 0)%nat.
Proof.
  unfold errors_by. cbn [events set_events].
  rewrite filter_app, length_app. f_equal.
  rewrite filter_cons, filter_nil.
  destruct (same_emitter (emitter ev) em && is_error ev); reflexivity.
Qed.

#[local] Instance no_new_errors_preorder : PreOrder no_new_errors.
Proof.
  split.
  - intros w em. reflexivity.
  - intros w1 w2 w3 H12 H23 em. rewrite H23, H12. reflexivity.
Qed.

#[local] Instance no_new_errors_tolerates : Tolerates no_new_errors.
Proof.
  split; intros; intros em; try reflexivity.
  rewrite errors_by_app. rewrite H, andb_false_r. lia.
Qed.

(** Closes the writes [keeps_step] arrives at for a relation that
    tolerates them. *)
Ltac keeps_write :=
  first
    [ apply tolerates_spawned
    | apply tolerates_timers
    | apply tolerates_directories
    | apply tolerates_regular_files
    | apply tolerates_event; reflexivity ].

Section CloudKeeps.
Context `{Runtime} (R : relation World) `{!PreOrder R, !Tolerates R}.

Lemma executeScriptAttempt_keeps options r :
  reports R options -> keeps R (GoogleDriveManager._executeScriptAttempt options r).
Proof.
  intros Hcb. unfold GoogleDriveManager._executeScriptAttempt.
  destruct (onProgress options) as [f|] eqn:Ef;
    repeat keeps_step; try keeps_write.
  apply (Hcb f Ef).
Qed.

Lemma attempts_keeps maxRetries options runs remaining attempt lastError :
  reports R options ->
  keeps R (GoogleDriveManager.attempts maxRetries options runs remaining attempt lastError).
Proof.
  intros Hcb. revert attempt lastError.
  induction remaining as [|remaining IH]; intros attempt lastError;
    cbn [GoogleDriveManager.attempts].
  - apply keeps_throw, _.
  - apply keeps_try_catch; [apply _|apply executeScriptAttempt_keeps, Hcb|].
    intros error. apply keeps_bind; [apply _| |intros _; apply IH].
    repeat keeps_step; keeps_write.
Qed.

Lemma executePythonScript_keeps options runs :
  reports R options -> keeps R (GoogleDriveManager._executePythonScript options runs).
Proof. intros Hcb. apply attempts_keeps, Hcb. Qed.

Lemma uploadDirectory_keeps localPath runs :
  keeps R (GoogleDriveManager.uploadDirectory localPath runs).
Proof.
  unfold GoogleDriveManager.uploadDirectory. repeat keeps_step.
  apply executePythonScript_keeps. intros f [= <-] v. keeps_step. keeps_step. keeps_write.
Qed.

Lemma downloadModels_keeps runs : keeps R (GoogleDriveManager.downloadModels runs).
Proof.
  unfold GoogleDriveManager.downloadModels.
  apply executePythonScript_keeps. intros f [= <-] v. keeps_step. keeps_step. keeps_write.
Qed.

Lemma createFolder_keeps runs : keeps R (GoogleDriveManager.createFolder runs).
Proof.
  unfold GoogleDriveManager.createFolder.
  apply executePythonScript_keeps. intros f [=].
Qed.

End CloudKeeps.

Section SyncFacts.
Context `{Runtime}.

Lemma syncModels_keeps_manifest direction runs :
  keeps manifest_frame (GoogleDriveManager.syncModels direction runs).
Proof.
  unfold GoogleDriveManager.syncModels.
  repeat keeps_step;
    try (apply uploadDirectory_keeps; apply _);
    try (apply downloadModels_keeps; apply _);
    repeat split.
Qed.

Lemma with_models_id w : with_models (models (config w)) w = w.
Proof. destruct w as [o [ms s g] f d r e t n]. reflexivity. Qed.

Lemma with_models_twice ms ms' w : with_models ms' (with_models ms w) = with_models ms' w.
Proof. reflexivity. Qed.

Lemma set_set {V} (o : list (string * V)) k v v' :
  Obj.set (Obj.set o k v) k v' = Obj.set o k v'.
Proof.
  induction o as [|[k0 v0] o IH]; cbn [Obj.set].
  - rewrite String.eqb_refl. reflexivity.
  - destruct (String.eqb k0 k) eqn:E; cbn [Obj.set]; rewrite E; [reflexivity|].
    rewrite IH. reflexivity.
Qed.

Lemma stamp_stamp t t' e : stamp t' (stamp t e) = stamp t' e.
Proof. reflexivity. Qed.

(** One turn of the loop on a key the manifest holds. *)
Lemma mark_synced_run env i k w e :
  Obj.get (models (config w)) k = Some e ->
  ModelManager.mark_synced env i k w =
  (Resolved (S i), with_models (Obj.set (models (config w)) k (stamp (clock env i) e)) w).
Proof.
  intros Hget. unfold ModelManager.mark_synced, ModelManager.update_entry. run.
  rewrite Hget. run. rewrite get_set_eq. run. rewrite set_set. reflexivity.
Qed.

(** The loop over keys the manifest holds: it does not throw, and every
    entry it passes is stamped with the reading made at its turn. *)
Lemma sync_loop env ks : forall i w,
  (forall k, k ∈ ks -> is_Some (Obj.get (models (config w)) k)) ->
  exists ms',
    foldM (ModelManager.mark_synced env) i ks w =
      (Resolved (i + length ks)%nat, with_models ms' w)
    /\ forall k,
         match Obj.get (models (config w)) k with
         | None => Obj.get ms' k = None
         | Some e =>
             ((k ∉ ks) /\ Obj.get ms' k = Some e)
             \/ exists j, ks !! j = Some k
                          /\ Obj.get ms' k = Some (stamp (clock env (i + j)) e)
         end.
Proof.
  induction ks as [|k0 ks IH]; intros i w Hin.
  - exists (models (config w)). cbn [foldM length]. run.
    rewrite with_models_id, Nat.add_0_r. split; [reflexivity|].
    intros k. destruct (Obj.get _ k); [left; split; [apply not_elem_of_nil|]|]; reflexivity.
  - destruct (Hin k0 (list_elem_of_here _ _)) as [e0 He0].
    cbn [foldM]. run. rewrite (mark_synced_run env i k0 w e0 He0).
    set (ms1 := Obj.set (models (config w)) k0 (stamp (clock env i) e0)).
    destruct (IH (S i) (with_models ms1 w)) as (ms' & Hrun & Hms').
    { intros k Hk. cbn [with_models config set_config models set_models]. subst ms1.
      destruct (decide (k0 = k)) as [->|Hne]; [rewrite get_set_eq; eauto|].
      rewrite get_set_ne by exact Hne. apply Hin, list_elem_of_further, Hk. }
    exists ms'. rewrite Hrun, with_models_twice.
    replace (S i + length ks)%nat with (i + length (k0 :: ks))%nat by (cbn [length]; lia).
    split; [reflexivity|]. intros k. specialize (Hms' k).
    cbn [with_models config set_config models set_models] in Hms'. subst ms1.
    destruct (decide (k0 = k)) as [->|Hne].
    + rewrite get_set_eq in Hms'. rewrite He0. right.
      destruct Hms' as [[_ Hk]|(j & Hj & Hk)].
      * exists 0%nat. rewrite Nat.add_0_r. split; [reflexivity|exact Hk].
      * exists (S j). split; [exact Hj|]. rewrite Hk, stamp_stamp.
        replace (S i + j)%nat with (i + S j)%nat by lia. reflexivity.
    + rewrite get_set_ne in Hms' by exact Hne.
      destruct (Obj.get (models (config w)) k) as [e|]; [|exact Hms'].
      destruct Hms' as [[Hk Hget]|(j & Hj & Hk)].
      * left. split; [|exact Hget]. rewrite elem_of_cons. intros [->|?]; auto.
      * right. exists (S j). split; [exact Hj|].
        replace (i + S j)%nat with (S i + j)%nat by lia. exact Hk.
Qed.
End SyncFacts.

Section SyncResolved.
Context `{Runtime}.

End SyncResolved.




(** ** An operation that resolves has written the manifest file *)

Section Post.
Context {A : Type} (Q : A -> World -> Prop).

Lemma post_ret a : (forall w, Q a w) -> post Q (ret a).
Proof. intros HQ w a' w' [= <- <-]. apply HQ. Qed.

Lemma post_throw e : post Q (throw e).
Proof. intros w a w' [=]. Qed.

Lemma post_bind {B} (m : M B) (k : B -> M A) :
  (forall b, post Q (k b)) -> post Q (bind m k).
Proof.
  intros Hk w a w'. cbn [bind]. destruct (m w) as [[b|e] w1]; [apply Hk|discriminate].
Qed.

Lemma post_try_catch (m : M A) (h : string -> M A) :
  post Q m -> (forall e, post Q (h e)) -> post Q (try_catch m h).
Proof.
  intros Hm Hh w a w'. cbn [try_catch].
  destruct (m w) as [[b|e] w1] eqn:E; [|apply Hh].
  intros [= <- <-]. eapply Hm, E.
Qed.

Lemma post_saved nm p a :
  (forall w, saved w -> Q a w) ->
  post Q (ModelManager._saveConfig >>> emit by_manager nm p >>> ret a).
Proof. intros HQ w a' w'. run. intros [= <- <-]. apply HQ. reflexivity. Qed.
End Post.

Ltac post_step :=
  lazymatch goal with
  | |- post _ (bind ModelManager._saveConfig _) => apply post_saved; intros ? ?
  | |- post _ (bind _ _) => apply post_bind; intros ?
  | |- post _ (try_catch _ _) => apply post_try_catch; [|intros ?]
  | |- post _ (throw _) => apply post_throw
  | |- post _ (ret _) => apply post_ret; intros ?
  | |- post _ (if ?b then _ else _) => destruct b
  | |- post _ (match ?x with _ => _ end) => destruct x
  | |- post _ (let _ := _ in _) => cbv zeta
  end.

Lemma resolved_call_has_saved `{Runtime} (c : Call) (env : Env) :
  post (fun r w' => was_skipped c r \/ saved w') (perform c env).
Proof.
  destruct c; cbn [perform];
    unfold ModelManager.pullModel, ModelManager.trainModel,
      ModelManager.syncToGoogleDrive, ModelManager.restoreFromGoogleDrive,
      ModelManager.deleteModel, ModelManager.setupGoogleDrive;
    repeat post_step; auto.
  left. eexists. split; reflexivity.
Qed.

(** ** Starting on a manifest that does not parse *)

(** C9: when the manifest file exists and does not parse, constructing the
    manager does not raise: it emits one warning and starts from the empty
    registry, leaving the file as it is; the first call after that which
    resolves without being a skipped pull writes the manifest in memory over
    the file, so nothing the file held before is kept, and no operation has
    rejected on the way. *)
Theorem unparseable_manifest_is_replaced `{Runtime} (w : World) (text : string) :
  config_file w = Some (Unparseable text) ->
  let start := ModelManager.constructor w in
  start.1 = Resolved tt
  /\ config start.2 = empty_config
  /\ config_file start.2 = Some (Unparseable text)
  /\ (exists message,
        events start.2 = events w ++ [mkEvent by_manager "warning" (Some (JStr message))])
  /\ forall c env r w',
       perform c env start.2 = (Resolved r, w') ->
       was_skipped c r \/ config_file w' = Some (Manifest (config w')).
Proof.
  intros Hfile start.
  assert (Hstart : start.1 = Resolved tt /\ config start.2 = empty_config
                   /\ config_file start.2 = Some (Unparseable text)
                   /\ exists message, events start.2 =
                        events w ++ [mkEvent by_manager "warning" (Some (JStr message))]).
  { subst start.
    unfold ModelManager.constructor, ModelManager._loadConfig,
      ModelManager._ensureDirectories, ModelManager.ensure_directory.
    run. destruct (_ || _); cbn [when negb]; run; rewrite Hfile; run;
      cbn [forEach]; run;
      repeat (match goal with |- context [when (negb ?b)] => destruct b end;
              cbn [when negb]; run);
      repeat split; eauto. }
  destruct Hstart as (? & ? & ? & ?). repeat split; auto.
  intros c env r w' Hcall. apply (resolved_call_has_saved c env _ _ _ Hcall).
Qed.

(** C9 at a concrete input: a truncated manifest file, then a training
    run. *)
Lemma unparseable_manifest_witness :
  let w := boot (Some (Unparseable "{ models: ")) ∅ {["/home/user/data.txt"]} in
  let start := ModelManager.constructor (H := scenario_parse) w in
  let t := ModelManager.trainModel "alpha" "/home/user/data.txt" "alpha-tuned"
             (cooperative 1000) start.2 in
  config_file w = Some (Unparseable "{ models: ")
  /\ start.1 = Resolved tt
  /\ config start.2 = empty_config
  /\ t.1 = Resolved (trained "alpha-tuned_1000" "alpha-tuned")
  /\ config_file t.2 = Some (Manifest (config t.2))
  /\ (models (config t.2)).*1 = ["alpha-tuned"].
Proof.
  intros w start t. split; [reflexivity|].
  destruct (unparseable_manifest_is_replaced (H := scenario_parse) w "{ models: " eq_refl)
    as (Hstart & Hempty & _ & _ & Hcalls).
  fold start in Hstart, Hempty, Hcalls.
  split; [exact Hstart|]. split; [exact Hempty|].
  assert (Ht : t = (Resolved (trained "alpha-tuned_1000" "alpha-tuned"), t.2))
    by (vm_compute; reflexivity).
  split; [rewrite Ht; reflexivity|]. split; [|vm_compute; reflexivity].
  destruct (Hcalls (TrainModel "alpha" "/home/user/data.txt" "alpha-tuned")
              (cooperative 1000) _ _ Ht) as [(m & [=] & _)|Hsaved].
  exact Hsaved.
Defined.

(** ** The retry loop of the cloud client *)

Lemma forEach_mkdirSync l w :
  exists d, forEach mkdirSync l w = (Resolved tt, set_directories d w).
Proof.
  revert w. induction l as [|p l IH]; intros w; cbn [forEach]; run.
  - exists (directories w). destruct w; reflexivity.
  - destruct (IH (set_directories ({[p]} ∪ directories w) w)) as [d ->].
    exists d. reflexivity.
Qed.

Lemma retries_app w ev :
  retries (set_events (events w ++ [ev]) w) =
  retries w ++ (if is_retry ev then [ev] else []).
Proof.
  unfold retries. cbn [events set_events]. rewrite filter_app. f_equal.
  rewrite filter_cons, filter_nil. destruct (is_retry ev); reflexivity.
Qed.

Section RetryFacts.
Context `{Runtime}.

(** One attempt: it starts one subprocess, and it comes to what the run of
    the script comes to. *)
Lemma executeScriptAttempt_spec options r w :
  quiet options ->
  let a := GoogleDriveManager._executeScriptAttempt options r w in
  a.1 = settled r
  /\ spawned a.2 = S (spawned w) /\ timers a.2 = timers w /\ retries a.2 = retries w.
Proof.
  intros Hquiet. unfold GoogleDriveManager._executeScriptAttempt, settled, script_value.
  run. destruct (forEach_mkdirSync (made r) (set_spawned (S (spawned w)) w)) as [d ->].
  destruct (exit r) as [message|stdout]; run; [repeat split|].
  destruct (JSON_parse stdout) as [v|e]; run; [|repeat split].
  destruct (onProgress options) as [f|] eqn:Ef; run; [|repeat split].
  destruct (Hquiet f Ef v (set_directories d (set_spawned (S (spawned w)) w)))
    as (Hr & Hs & Ht & He).
  destruct (f v _) as [[[]|e] w1]; cbn [fst] in Hr; [|discriminate].
  cbn [snd] in *. repeat split; assumption.
Qed.

Lemma backoff_cons attempt count :
  backoff attempt (S count) = (2 ^ Z.of_nat attempt * 1000) :: backoff (S attempt) count.
Proof.
  unfold backoff. cbn [seq fmap list_fmap]. rewrite Nat.add_0_r. f_equal.
  rewrite <- seq_shift, <- list_fmap_compose.
  apply list_fmap_ext. intros _ j _. cbn. do 3 f_equal. lia.
Qed.

Lemma notices_cons runs attempt count :
  notices runs attempt (S count) =
  mkEvent by_gdrive "retry" (retry_payload (attempt + 1) (failure_of (runs attempt)))
    :: notices runs (S attempt) count.
Proof.
  unfold notices. cbn [seq fmap list_fmap]. rewrite Nat.add_0_r. f_equal.
  rewrite <- seq_shift, <- list_fmap_compose.
  apply list_fmap_ext. intros _ j _. cbn.
  replace (attempt + S j)%nat with (S (attempt + j)) by lia. reflexivity.
Qed.

(** The loop: it makes [tries] attempts, waits [2 ^ attempt] seconds and
    emits one ['retry'] after each attempt but the last, and settles as the
    last attempt does. *)
Lemma attempts_spec maxRetries options runs :
  quiet options ->
  forall remaining attempt lastError w,
    (attempt + remaining = maxRetries)%nat -> (0 < remaining)%nat ->
    let k := tries runs remaining attempt in
    let r := GoogleDriveManager.attempts maxRetries options runs remaining attempt lastError w in
    (1 <= k <= remaining)%nat
    /\ r.1 = settled (runs (attempt + k - 1)%nat)
    /\ spawned r.2 = (spawned w + k)%nat
    /\ timers r.2 = timers w ++ backoff attempt (k - 1)
    /\ retries r.2 = retries w ++ notices runs attempt (k - 1).
Proof.
  intros Hquiet. induction remaining as [|remaining IH];
    intros attempt lastError w Hsum Hpos; [lia|].
  cbn [tries GoogleDriveManager.attempts]. run.
  destruct (executeScriptAttempt_spec options (runs attempt) w Hquiet)
    as (Hr & Hs & Ht & He).
  destruct (GoogleDriveManager._executeScriptAttempt options (runs attempt) w)
    as [[v|e] w1]; cbn [fst snd] in Hr, Hs, Ht, He; unfold settled in Hr.
  - destruct (script_value (runs attempt)) as [v'|e'] eqn:Ev; [|discriminate].
    cbn [fst snd]. replace (attempt + 1 - 1)%nat with attempt by lia.
    unfold settled. rewrite Ev, Hs, Ht, He.
    cbn [backoff notices seq fmap list_fmap Nat.sub]. rewrite !app_nil_r.
    repeat split; auto; lia.
  - destruct (script_value (runs attempt)) as [v'|e'] eqn:Ev; [discriminate|].
    injection Hr as ->.
    destruct remaining as [|remaining].
    + replace (attempt <? maxRetries - 1)%nat with false
        by (symmetry; apply Nat.ltb_ge; lia).
      cbn [when tries GoogleDriveManager.attempts default]. run.
      replace (attempt + 1 - 1)%nat with attempt by lia.
      unfold settled. rewrite Ev, Hs, Ht, He.
      cbn [backoff notices seq fmap list_fmap Nat.sub]. rewrite !app_nil_r.
      repeat split; auto; lia.
    + replace (attempt <? maxRetries - 1)%nat with true
        by (symmetry; apply Nat.ltb_lt; lia).
      cbn [when]. run.
      match goal with
      | |- context [GoogleDriveManager.attempts _ _ _ _ _ ?le ?w2] =>
          assert (Hs2 : spawned w2 = spawned w1) by reflexivity;
          assert (Ht2 : timers w2 = timers w1 ++ [2 ^ Z.of_nat attempt * 1000])
            by reflexivity;
          assert (He2 : retries w2 = retries w1 ++
                          [mkEvent by_gdrive "retry" (retry_payload (attempt + 1) e')])
            by (unfold retries; cbn [events set_events]; rewrite filter_app; reflexivity);
          pose proof (IH (S attempt) le w2 ltac:(lia) ltac:(lia)) as IH2;
          generalize dependent w2; intros w' Hs2 Ht2 He2 IH2
      end.
      cbv zeta in IH2. destruct IH2 as (Hk & Hr' & Hs' & Ht' & He').
      set (k := tries runs (S remaining) (S attempt)) in *.
      rewrite Hr', Hs', Ht', He', Hs2, Ht2, He2, Hs, Ht, He.
      replace (S k - 1)%nat with (S (k - 1)) by lia.
      rewrite backoff_cons, notices_cons. unfold failure_of at 1. rewrite Ev.
      replace (attempt + S k - 1)%nat with (S attempt + k - 1)%nat by lia.
      rewrite <- !app_assoc. cbn [app].
      repeat split; auto; lia.
Qed.
End RetryFacts.

Section CloudOptions.
Context `{Runtime}.

(** The options the cloud operations run their scripts with leave the
    number of attempts at its default, and their callbacks only report
    progress. *)
Lemma quiet_progress nm :
  String.eqb nm "retry" = false ->
  quiet (mkExecOptions None (Some (fun progress => emit by_gdrive nm (Some progress)))).
Proof.
  intros Hnm f [= <-] v w. run. unfold retry_frame. run.
  rewrite retries_app. unfold is_retry. cbn [emitter name same_emitter andb].
  rewrite Hnm, app_nil_r. repeat split.
Qed.

Lemma quiet_plain : quiet (mkExecOptions None None).
Proof. intros f [=]. Qed.
End CloudOptions.



(** ** One failure, how many error events *)

Lemma keeps_copyFileSync (R : relation World) `{!PreOrder R, !Tolerates R} src dst :
  keeps R (copyFileSync src dst).
Proof.
  intros w. cbn [copyFileSync]. destruct (bool_decide _); cbn [snd].
  - apply tolerates_regular_files.
  - reflexivity.
Qed.

Lemma keeps_rmSync (R : relation World) `{!PreOrder R, !Tolerates R} p :
  keeps R (rmSync p).
Proof.
  intros w. cbn [rmSync modify snd].
  etrans; [apply tolerates_directories|apply tolerates_regular_files].
Qed.











Section Reports.
Context `{Runtime}.


End Reports.








(** ** The manifest file is kept up to date *)

Lemma saved_in_step w : saved w -> in_step w.
Proof. unfold saved, in_step. intros ->. reflexivity. Qed.

Lemma settles_of_keeps {A} (m : M A) : keeps manifest_frame m -> settles m.
Proof.
  intros Hm w Hstep. destruct (Hm w) as (_ & Hc & Hf).
  unfold in_step in *. rewrite Hf, Hc. exact Hstep.
Qed.

Lemma settles_of_lands {A} (m : M A) : lands m -> settles m.
Proof. intros Hm w _. apply saved_in_step, Hm. Qed.

Lemma settles_bind {A B} (m : M A) (k : A -> M B) :
  settles m -> (forall a, settles (k a)) -> settles (bind m k).
Proof.
  intros Hm Hk w Hsaved. cbn [bind]. specialize (Hm w Hsaved).
  destruct (m w) as [[a|e] w1]; cbn [snd] in *; [apply Hk, Hm|exact Hm].
Qed.

Lemma settles_try_catch {A} (m : M A) (h : string -> M A) :
  settles m -> (forall e, settles (h e)) -> settles (try_catch m h).
Proof.
  intros Hm Hh w Hsaved. cbn [try_catch]. specialize (Hm w Hsaved).
  destruct (m w) as [[a|e] w1]; cbn [snd] in *; [exact Hm|apply Hh, Hm].
Qed.

(** A write to the manifest that is followed at once by [_saveConfig]. *)
Lemma lands_modify {A} f nm p (a : A) :
  (forall w, config_file (f w) = config_file w) ->
  lands (modify f >>> ModelManager._saveConfig >>> emit by_manager nm p >>> ret a).
Proof. intros Hf w. run. reflexivity. Qed.

Lemma lands_saveConfig {A} nm p (a : A) :
  lands (ModelManager._saveConfig >>> emit by_manager nm p >>> ret a).
Proof. intros w. run. reflexivity. Qed.

Lemma track_restored_resolves env l : forall i w,
  exists i' ms, foldM (ModelManager.track_restored env) i l w = (Resolved i', with_models ms w).
Proof.
  induction l as [|k l IH]; intros i w; cbn [foldM]; run.
  - exists i, (models (config w)). rewrite with_models_id. reflexivity.
  - unfold ModelManager.track_restored at 1. run.
    destruct (Obj.get (models (config w)) k); run.
    + apply IH.
    + match goal with
      | |- context [foldM _ _ l ?w1] => destruct (IH (S i) w1) as (i' & ms & ->)
      end.
      exists i', ms. reflexivity.
Qed.

Lemma manifest_frame_events w e : manifest_frame w (set_events e w).
Proof. repeat split. Qed.

Ltac frame_write := first [keeps_write | apply manifest_frame_events].

Section Settles.
Context `{Runtime}.

Lemma authenticate_keeps_manifest r :
  keeps manifest_frame (GoogleDriveManager.authenticate r).
Proof.
  unfold GoogleDriveManager.authenticate, GoogleDriveManager._authenticatePython,
    GoogleDriveManager._authenticateNode.
  repeat keeps_step; frame_write.
Qed.

Lemma lands_sync_tail env nm p (result : Json) :
  lands (let! w := get_world in
         foldM (ModelManager.mark_synced env) 0%nat (Obj.keys (models (config w))) >>>
         ModelManager._saveConfig >>> emit by_manager nm p >>> ret result).
Proof.
  intros w. run.
  destruct (sync_loop env (Obj.keys (models (config w))) 0%nat w) as (ms' & -> & _).
  { intros k Hk. apply elem_get_Some, elem_of_keys, Hk. }
  run. reflexivity.
Qed.

Lemma lands_restore_tail env nm p (result : Json) :
  lands (let! restoredModels := ModelManager._scanLocalModels in
         foldM (ModelManager.track_restored env) 0%nat restoredModels >>>
         ModelManager._saveConfig >>> emit by_manager nm p >>> ret result).
Proof.
  intros w. unfold ModelManager._scanLocalModels. run.
  destruct (_ || _); run;
    match goal with
    | |- context [foldM _ _ ?l ?w1] =>
        destruct (track_restored_resolves env l 0%nat w1) as (i' & ms & ->)
    end; run; reflexivity.
Qed.
End Settles.

Ltac settles_step :=
  lazymatch goal with
  | |- settles (try_catch _ _) => apply settles_try_catch; [|intros ?]
  | |- settles (bind (modify _) _) =>
      apply settles_of_lands, lands_modify; intros ?; reflexivity
  | |- settles (bind ModelManager._saveConfig _) => apply settles_of_lands, lands_saveConfig
  | |- settles (bind get_world (fun _ => bind (foldM (ModelManager.mark_synced _) _ _) _)) =>
      apply settles_of_lands, lands_sync_tail
  | |- settles (bind ModelManager._scanLocalModels _) =>
      apply settles_of_lands, lands_restore_tail
  | |- settles (bind _ _) => apply settles_bind; [apply settles_of_keeps|intros ?]
  | |- settles (throw _) => apply settles_of_keeps, keeps_throw, _
  | |- settles (ret _) => apply settles_of_keeps, keeps_ret, _
  | |- settles (if ?b then _ else _) => destruct b
  | |- settles (let _ := _ in _) => cbv zeta
  end.

Ltac frame_keeps :=
  unfold OllamaClient.pullModel, OllamaClient.pull_data, OllamaClient.pull_line,
    OllamaClient.showModel, OllamaClient.deleteModel, OllamaClient.checkHealth,
    OllamaClient.modelExists, GoogleDriveManager.isAuthenticated;
  repeat keeps_step;
  try first
    [ frame_write
    | apply syncModels_keeps_manifest
    | apply authenticate_keeps_manifest
    | apply downloadModels_keeps; apply _
    | apply createFolder_keeps; apply _
    | apply keeps_copyFileSync; apply _
    | apply keeps_rmSync; apply _ ].

(** A new manager starts with memory and file in step, whatever the file
    holds. *)
Lemma constructor_in_step `{Runtime} w : in_step (ModelManager.constructor w).2.
Proof.
  unfold ModelManager.constructor, ModelManager._loadConfig,
    ModelManager._ensureDirectories, ModelManager.ensure_directory, in_step.
  run. destruct (_ || _); cbn [when negb]; run;
    destruct (config_file w) as [[c|text]|] eqn:Hfile; run; cbn [forEach]; run;
    repeat (match goal with |- context [when (negb ?b)] => destruct b end;
            cbn [when negb]; run);
    rewrite ?Hfile; reflexivity.
Qed.

(** Every call but a local and remote delete keeps memory and file in
    step, however it ends: its writes to the manifest are followed by
    [_saveConfig] with nothing in between that can fail. *)
Lemma calls_keep_manifest_in_step `{Runtime} (c : Call) (env : Env) :
  ~ deletes_both c -> settles (perform c env).
Proof.
  intros Hnot. destruct c; cbn [perform];
    unfold ModelManager.pullModel, ModelManager.trainModel,
      ModelManager.syncToGoogleDrive, ModelManager.restoreFromGoogleDrive,
      ModelManager.deleteModel, ModelManager.setupGoogleDrive, ModelManager.store_entry.
  - repeat settles_step; frame_keeps.
  - repeat settles_step; frame_keeps.
  - repeat settles_step; frame_keeps.
  - repeat settles_step; frame_keeps.
  - destruct deleteLocal, deleteRemote.
    + exfalso. apply Hnot. eexists. reflexivity.
    + apply settles_try_catch; [|intros ?; repeat settles_step; frame_keeps].
      apply settles_of_lands. intros w. run.
      destruct (bool_decide _); cbn [when]; run; [|reflexivity].
      destruct (_ || _); cbn [when]; run; reflexivity.
    + cbn [andb when]. repeat settles_step; frame_keeps.
    + cbn [andb when]. repeat settles_step; frame_keeps.
  - repeat settles_step; frame_keeps.
Qed.

(** ** The scenarios, run *)

Example split_nl_example :
  split_nl ("ab" +:+ LF +:+ LF +:+ "c") = ["ab"; ""; "c"].
Proof. reflexivity. Qed.

Example keys_example :
  Obj.keys [("b", 1); ("10", 2); ("a", 3); ("2", 4); ("01", 5)] = ["2"; "10"; "b"; "a"; "01"].
Proof. vm_compute. reflexivity. Qed.

(** The two terminated records are handed over once each; the text after
    the last line feed stays in the buffer and is never parsed. *)
Example three_records_example :
  records_of_body (H := scenario_parse) (join three_records) = [JObj []; JObj []]
  /\ pending (join three_records) = "{}"
  /\ events (OllamaClient.pullModel (H := scenario_parse) "alpha" None
               (Response 200 three_records) first_start).2
     = events first_start ++
       [mkEvent by_ollama "progress"
          (Some (JObj [("model", JStr "alpha"); ("status", JObj [])]));
        mkEvent by_ollama "progress"
          (Some (JObj [("model", JStr "alpha"); ("status", JObj [])]))].
Proof. vm_compute. repeat split. Qed.

(** The scenario of the specification: pull, synchronise, train. *)
Example pull_sync_train_example :
  let w1 := (ModelManager.syncToGoogleDrive (H := scenario_parse)
               (Some (JStr "folder-1")) (within_millisecond 5000) two_models_pulled).2 in
  let w2 := (ModelManager.trainModel "alpha" "/home/user/data.txt" "alpha-tuned"
               (cooperative 6000) w1).2 in
  (models (config w2)).*1 = ["alpha"; "beta"; "alpha-tuned"]
  /\ synced <$> (models (config w2)).*2 = [true; true; false]
  /\ source <$> (models (config w2)).*2 = ["ollama"; "ollama"; "trained"]
  /\ saved w2.
Proof. vm_compute. repeat split. Qed.

(** A local delete removes the directory and the entry, and sends nothing
    to the serving endpoint. *)
Example delete_local_example :
  let w := with_local_copy "alpha" alpha_pulled in
  let r := ModelManager.deleteModel "alpha" true false (refusing_delete 3000) w in
  r.1 = Resolved (succeeded "alpha")
  /\ models (config r.2) = []
  /\ bool_decide (local_copy "alpha" w ∈ directories r.2) = false
  /\ saved r.2.
Proof. vm_compute. repeat split. Qed.

Section CloudOperations.
Context `{Runtime}.

(** Each operation of the cloud client that runs a generated script runs it
    through [_executePythonScript] with [maxRetries] unset: at most two
    subprocesses. *)
Lemma cloud_operations_try_twice localPath runs w :
  (spawned (GoogleDriveManager.uploadDirectory localPath runs w).2 <= spawned w + 2)%nat
  /\ (spawned (GoogleDriveManager.downloadModels runs w).2 <= spawned w + 2)%nat
  /\ (spawned (GoogleDriveManager.listFolderContents runs w).2 <= spawned w + 2)%nat
  /\ (spawned (GoogleDriveManager.createFolder runs w).2 <= spawned w + 2)%nat
  /\ (spawned (GoogleDriveManager.getStorageInfo runs w).2 <= spawned w + 2)%nat.
Proof.
  assert (Hrun : forall options, quiet options -> maxRetries options = None ->
            (spawned (GoogleDriveManager._executePythonScript options runs w).2
             <= spawned w + 2)%nat).
  { intros options Hquiet Hdefault. unfold GoogleDriveManager._executePythonScript,
      GoogleDriveManager.retries_of. rewrite Hdefault.
    destruct (attempts_spec 2 options runs Hquiet 2 0%nat None w eq_refl) as (Hk & _ & -> & _);
      lia. }
  split; [|repeat split; (apply Hrun;
    [first [apply quiet_plain|apply quiet_progress; reflexivity]|reflexivity])].
  unfold GoogleDriveManager.uploadDirectory. run.
  destruct (_ || _); run; [|lia].
  destruct (bool_decide _); run; [|lia].
  apply Hrun; [apply quiet_progress; reflexivity|reflexivity].
Qed.
End CloudOperations.
